(** * Music League Analytics: the join, filter and aggregation logic of
    [main.py], embedded in Rocq.

    The program is a pandas script.  Its tables are modelled as data frames
    with named columns and positional rows; every pandas call the script
    makes is given the meaning its documentation states, and a Python
    exception is an explicit [Raise] in a small error monad.  Numbers
    (int64 and float64 alike) are exact rationals. *)

From Stdlib Require Import String Ascii List ZArith QArith Qround Bool Lia.
From Stdlib Require Import Permutation Sorted.
Import ListNotations.
Local Open Scope string_scope.
Local Open Scope list_scope.

(* ================================================================== *)
(** ** Scalars *)

(** A scalar held by a data-frame cell or by a Python variable. [NaN] stands
    for every missing value (an empty CSV cell, [None], [NaT]). *)
Inductive cell : Type :=
| NaN
| Str (s : string)
| Num (q : Q)
| Time (t : Z).

(** Python's [a == b] on scalars, as pandas applies it element by element:
    a missing value compares unequal to everything, itself included. *)
Definition py_eq (a b : cell) : bool :=
  match a, b with
  | Str s, Str t => String.eqb s t
  | Num p, Num q => Qeq_bool p q
  | Time s, Time t => Z.eqb s t
  | _, _ => false
  end.

(** Python's [a != b]. *)
Definition py_ne (a b : cell) : bool := negb (py_eq a b).

(** [Series.notna()], one element. *)
Definition notna (a : cell) : bool :=
  match a with NaN => false | _ => true end.

(** The equality [DataFrame.merge] uses on join keys: unlike [==], two
    missing keys match each other. *)
Definition key_eqb (a b : cell) : bool :=
  match a, b with
  | NaN, NaN => true
  | _, _ => py_eq a b
  end.

(* ================================================================== *)
(** ** Exceptions *)

Inductive exn : Type :=
| FileError                 (* read_csv: file missing or unreadable *)
| KeyError (k : string)     (* a column label that is not in the frame *)
| ValueError                (* to_datetime: unparsable text *)
| IndexError                (* iloc[0] on an empty selection *)
| TypeError                 (* arithmetic on non-numeric data *)
| ZeroDivisionError.

Inductive result (A : Type) : Type :=
| Ok (a : A)
| Raise (e : exn).
Arguments Ok {A} a.
Arguments Raise {A} e.

Definition bind {A B : Type} (r : result A) (k : A -> result B) : result B :=
  match r with
  | Ok a => k a
  | Raise e => Raise e
  end.

Notation "x <- r ;; k" := (bind r (fun x => k))
  (at level 61, r at next level, right associativity).
Notation "' p <- r ;; k" := (bind r (fun x => let p := x in k))
  (at level 61, p pattern, r at next level, right associativity).

Fixpoint mapM {A B : Type} (f : A -> result B) (l : list A) : result (list B) :=
  match l with
  | [] => Ok []
  | x :: xs => y <- f x ;; ys <- mapM f xs ;; Ok (y :: ys)
  end.

(* ================================================================== *)
(** ** Data frames *)

Definition row := list cell.

Record DataFrame : Type := mkDF {
  columns : list string;
  rows : list row
}.

(** [len(df)] *)
Definition len (df : DataFrame) : nat := length (rows df).

Fixpoint index_of (c : string) (cols : list string) : option nat :=
  match cols with
  | [] => None
  | x :: xs => if String.eqb c x then Some 0%nat
               else option_map S (index_of c xs)
  end.

(** Position of a column label; a missing label is a [KeyError]. *)
Definition col_loc (cols : list string) (c : string) : result nat :=
  match index_of c cols with
  | Some i => Ok i
  | None => Raise (KeyError c)
  end.

Definition at_ (i : nat) (r : row) : cell := nth i r NaN.

(** [df[c]] : one column as a series. *)
Definition getitem (df : DataFrame) (c : string) : result (list cell) :=
  i <- col_loc (columns df) c ;;
  Ok (map (at_ i) (rows df)).

(** [df[[c1, ..., cn]]] : a frame with the listed columns, in that order. *)
Definition getitems (df : DataFrame) (cs : list string) : result DataFrame :=
  locs <- mapM (col_loc (columns df)) cs ;;
  Ok (mkDF cs (map (fun r => map (fun i => at_ i r) locs) (rows df))).

Fixpoint set_nth (i : nat) (v : cell) (r : row) : row :=
  match i, r with
  | O, _ :: xs => v :: xs
  | S j, x :: xs => x :: set_nth j v xs
  | _, [] => []
  end.

Fixpoint zip_with {A B C : Type} (f : A -> B -> C) (xs : list A) (ys : list B)
  : list C :=
  match xs, ys with
  | x :: xs', y :: ys' => f x y :: zip_with f xs' ys'
  | _, _ => []
  end.

(** [df[c] = series] for a column [c] the frame already has. *)
Definition setitem (df : DataFrame) (c : string) (s : list cell)
  : result DataFrame :=
  i <- col_loc (columns df) c ;;
  Ok (mkDF (columns df) (zip_with (fun r v => set_nth i v r) (rows df) s)).

(** [xs[mask]] : the elements whose mask entry is [True]. *)
Fixpoint boolean_index {A : Type} (xs : list A) (mask : list bool) : list A :=
  match xs, mask with
  | x :: xs', b :: mask' =>
      if b then x :: boolean_index xs' mask' else boolean_index xs' mask'
  | _, _ => []
  end.

(** [df[df[c] == v]] *)
Definition where_eq (df : DataFrame) (c : string) (v : cell)
  : result DataFrame :=
  s <- getitem df c ;;
  Ok (mkDF (columns df) (boolean_index (rows df) (map (fun x => py_eq x v) s))).

(** [series.iloc[0]] *)
Definition iloc0 (s : list cell) : result cell :=
  match s with
  | x :: _ => Ok x
  | [] => Raise IndexError
  end.

(** The list without its element at position [i]. *)
Fixpoint remove_nth {A : Type} (i : nat) (l : list A) : list A :=
  match i, l with
  | O, _ :: xs => xs
  | S j, x :: xs => x :: remove_nth j xs
  | _, [] => []
  end.

(** [c in cs] *)
Definition mem (c : string) (cs : list string) : bool :=
  existsb (String.eqb c) cs.

(** The rows of an inner join: every left row, in order, paired with every
    right row, in order, whose key matches. [rpart] is what a right row
    contributes to the output row. *)
Definition inner_join_rows (li ri : nat) (rpart : row -> row)
    (lrows rrows : list row) : list row :=
  flat_map
    (fun l => map (fun r => l ++ rpart r)
                  (filter (fun r => key_eqb (at_ li l) (at_ ri r)) rrows))
    lrows.

(** [left.merge(right, left_on=lk, right_on=rk, suffixes=(ls, rs))] with the
    default [how='inner']; [on=k] is the case [lk = rk = k], in which the key
    column appears once in the output.  A key label that a side lacks is a
    [KeyError].  The output has the left columns and then the right ones; a
    non-key label present on both sides gets the side's suffix. *)
Definition merge (left right : DataFrame) (left_on right_on : string)
    (suffixes : string * string) : result DataFrame :=
  ri <- col_loc (columns right) right_on ;;
  li <- col_loc (columns left) left_on ;;
  let shared := String.eqb left_on right_on in
  let rcols :=
    if shared then remove_nth ri (columns right) else columns right in
  let rpart := fun r : row => if shared then remove_nth ri r else r in
  let lnames :=
    map (fun c => if mem c rcols then String.append c (fst suffixes) else c)
        (columns left) in
  let rnames :=
    map (fun c => if mem c (columns left)
                  then String.append c (snd suffixes) else c)
        rcols in
  Ok (mkDF (lnames ++ rnames)
           (inner_join_rows li ri rpart (rows left) (rows right))).

(* ================================================================== *)
(** ** The outside world *)

(** What the script reads from its environment: the CSV files, as
    [pd.read_csv] hands them over, and the text-to-instant parser behind
    [pd.to_datetime]. *)
Record Host : Type := mkHost {
  read_csv : string -> result DataFrame;
  parse_datetime : string -> option Z
}.

Definition to_datetime_cell (h : Host) (c : cell) : result cell :=
  match c with
  | Str s => match parse_datetime h s with
             | Some t => Ok (Time t)
             | None => Raise ValueError
             end
  | Num q => Ok (Time (Qfloor q))
  | Time t => Ok (Time t)
  | NaN => Ok NaN
  end.

(** [pd.to_datetime(series)] with the default [errors='raise']. *)
Definition to_datetime (h : Host) (s : list cell) : result (list cell) :=
  mapM (to_datetime_cell h) s.

(** [df['Created'] = pd.to_datetime(df['Created'])] *)
Definition convert_created (h : Host) (df : DataFrame) : result DataFrame :=
  s <- getitem df "Created" ;;
  t <- to_datetime h s ;;
  setitem df "Created" t.

(* ================================================================== *)
(** ** [load_data] *)

Definition tables : Type :=
  (DataFrame * DataFrame * DataFrame * DataFrame * DataFrame * DataFrame)%type.

(** The body of the [try] block. *)
Definition load_data_try (h : Host) : result tables :=
  competitors <- read_csv h "data/competitors.csv" ;;
  rounds <- read_csv h "data/rounds.csv" ;;
  submissions <- read_csv h "data/submissions.csv" ;;
  votes <- read_csv h "data/votes.csv" ;;
  rounds <- convert_created h rounds ;;
  submissions <- convert_created h submissions ;;
  votes <- convert_created h votes ;;
  round_names <- getitems rounds ["ID"; "Name"] ;;
  submissions_with_rounds <-
    merge submissions round_names "Round ID" "ID" ("", "_round") ;;
  submission_info <-
    getitems submissions_with_rounds
      ["Spotify URI"; "Title"; "Artist(s)"; "Round ID"; "Name"; "Comment"] ;;
  votes_with_submissions <-
    merge votes submission_info "Spotify URI" "Spotify URI"
      ("", "_submission") ;;
  competitor_names <- getitems competitors ["ID"; "Name"] ;;
  votes_with_voters <-
    merge votes_with_submissions competitor_names "Voter ID" "ID"
      ("", "_voter") ;;
  Ok (competitors, rounds, submissions, votes,
      votes_with_voters, submissions_with_rounds).

Definition loaded : Type :=
  (option DataFrame * option DataFrame * option DataFrame *
   option DataFrame * option DataFrame * option DataFrame)%type.

(** [load_data()]: the six tables, or six [None] when anything in the body
    raised. *)
Definition load_data (h : Host) : loaded :=
  match load_data_try h with
  | Ok (competitors, rounds, submissions, votes,
        votes_with_voters, submissions_with_rounds) =>
      (Some competitors, Some rounds, Some submissions, Some votes,
       Some votes_with_voters, Some submissions_with_rounds)
  | Raise _ => (None, None, None, None, None, None)
  end.

(* ================================================================== *)
(** ** [main]: sidebar filters *)

(** [df[df['Name'] == selected]['ID'].iloc[0]] : the id behind a display
    name picked in a select box. *)
Definition lookup_id (df : DataFrame) (selected : cell) : result cell :=
  matching <- where_eq df "Name" selected ;;
  ids <- getitem matching "ID" ;;
  iloc0 ids.

(** The pair [(filtered_votes, filtered_submissions)]. *)
Definition views : Type := (DataFrame * DataFrame)%type.

(** Restriction of both views to one round. *)
Definition apply_round_filter (round_id : cell) (v : views) : result views :=
  let '(votes_view, submissions_view) := v in
  filtered_votes <- where_eq votes_view "Round ID" round_id ;;
  filtered_submissions <- where_eq submissions_view "Round ID" round_id ;;
  Ok (filtered_votes, filtered_submissions).

(** Restriction of both views to one competitor. *)
Definition apply_competitor_filter (competitor_id : cell) (v : views)
  : result views :=
  let '(votes_view, submissions_view) := v in
  filtered_votes <- where_eq votes_view "Voter ID" competitor_id ;;
  filtered_submissions <-
    where_eq submissions_view "Submitter ID" competitor_id ;;
  Ok (filtered_votes, filtered_submissions).

(** The "Apply filters" block of [main]. *)
Definition apply_filters (rounds competitors votes_with_voters
    submissions_with_rounds : DataFrame)
    (selected_round selected_competitor : cell) : result views :=
  v <- (if py_ne selected_round (Str "All Rounds") then
          round_id <- lookup_id rounds selected_round ;;
          apply_round_filter round_id
            (votes_with_voters, submissions_with_rounds)
        else Ok (votes_with_voters, submissions_with_rounds)) ;;
  if py_ne selected_competitor (Str "All Competitors") then
    competitor_id <- lookup_id competitors selected_competitor ;;
    apply_competitor_filter competitor_id v
  else Ok v.

(** What a run of the script shows: the load-failure notice, after which
    [main] returns at once, or the content computed from the tables. *)
Inductive page (A : Type) : Type :=
| LoadFailed
| Rendered (content : A).
Arguments LoadFailed {A}.
Arguments Rendered {A} content.

(** [main] from its start to the end of the "Apply filters" block, followed
    by [k], the rest of the script. *)
Definition main_with {A : Type} (h : Host)
    (selected_round selected_competitor : cell)
    (k : tables -> views -> result A) : result (page A) :=
  match load_data h with
  | (None, _, _, _, _, _) => Ok LoadFailed
  | (Some competitors, Some rounds, Some submissions, Some votes,
     Some votes_with_voters, Some submissions_with_rounds) =>
      v <- apply_filters rounds competitors votes_with_voters
             submissions_with_rounds selected_round selected_competitor ;;
      a <- k (competitors, rounds, submissions, votes,
              votes_with_voters, submissions_with_rounds) v ;;
      Ok (Rendered a)
  | _ => Raise TypeError
  end.

(* ================================================================== *)
(** ** [main]: overview tab *)

(** The four metric cards: rounds, competitors, submissions, votes. *)
Definition overview_metrics (t : tables) (v : views)
  : result (nat * nat * nat * nat) :=
  let '(competitors, rounds, submissions, votes, _, _) := t in
  Ok (len rounds, len competitors, len submissions, len votes).

(** [main] up to the metric cards. *)
Definition main_overview (h : Host) (selected_round selected_competitor : cell)
  : result (page (nat * nat * nat * nat)) :=
  main_with h selected_round selected_competitor overview_metrics.

(* ================================================================== *)
(** ** [main]: comments tab *)

(** [df[df['Comment'].notna() & (df['Comment'] != '')]] *)
Definition with_comment (df : DataFrame) : result DataFrame :=
  present <- getitem df "Comment" ;;
  nonempty <- getitem df "Comment" ;;
  Ok (mkDF (columns df)
        (boolean_index (rows df)
           (zip_with andb (map notna present)
                          (map (fun x => py_ne x (Str "")) nonempty)))).

Definition of_nat (n : nat) : Q := inject_Z (Z.of_nat n).

(** Python's [a / b] on two ints. *)
Definition truediv (a b : nat) : result Q :=
  if Nat.eqb b 0 then Raise ZeroDivisionError
  else Ok (Qred (of_nat a / of_nat b)).

(** The first two metrics of the comments tab: [total_comments] and
    [comment_rate]. *)
Definition comment_statistics (filtered_submissions : DataFrame)
  : result (nat * Q) :=
  commented <- with_comment filtered_submissions ;;
  let total_comments := len commented in
  ratio <- truediv total_comments (len filtered_submissions) ;;
  let comment_rate := Qred (ratio * 100) in
  Ok (total_comments, comment_rate).

(** [main] up to these two metrics; the charts drawn in between take no part
    in them. *)
Definition main_comments (h : Host) (selected_round selected_competitor : cell)
  : result (page (nat * Q)) :=
  main_with h selected_round selected_competitor
    (fun _ v => comment_statistics (snd v)).

(* ================================================================== *)
(** ** Numeric series *)

(** The numeric content of a cell: [None] for a missing value, which the
    reductions skip; text and instants are not numbers. *)
Definition to_num (c : cell) : result (option Q) :=
  match c with
  | Num q => Ok (Some q)
  | NaN => Ok None
  | Str _ | Time _ => Raise TypeError
  end.

Fixpoint somes {A : Type} (l : list (option A)) : list A :=
  match l with
  | [] => []
  | Some x :: xs => x :: somes xs
  | None :: xs => somes xs
  end.

Definition total (qs : list Q) : Q := fold_right Qplus 0%Q qs.

(** [series.sum()] of a numeric column: missing values are skipped and the
    empty sum is 0. *)
Definition series_sum (s : list cell) : result cell :=
  ns <- mapM to_num s ;;
  Ok (Num (Qred (total (somes ns)))).

(** [series.mean()] of a numeric column: missing values are skipped and the
    mean of nothing is NaN. *)
Definition series_mean (s : list cell) : result cell :=
  ns <- mapM to_num s ;;
  match somes ns with
  | [] => Ok NaN
  | qs => Ok (Num (Qred (total qs / of_nat (length qs))))
  end.

(* ================================================================== *)
(** ** [main]: competitor tab, all competitors *)

(** One entry of [competitor_stats]: the dict built per competitor. *)
Record stats : Type := mkStats {
  Name : cell;
  Submissions : cell;
  Points_Received : cell;
  Avg_Points_Received : cell;
  Votes_Cast : cell;
  Avg_Points_Given : cell;
  Comments : cell
}.

Definition count (n : nat) : cell := Num (of_nat n).

(** [competitor[label]] for a row produced by [competitors.iterrows()]. *)
Definition field (cols : list string) (r : row) (label : string)
  : result cell :=
  i <- col_loc cols label ;;
  Ok (at_ i r).

(** [votes.merge(submissions[['Spotify URI', 'Submitter ID']],
    on='Spotify URI')] restricted to the rows whose ['Submitter ID'] is the
    competitor: the votes received. *)
Definition votes_received (votes submissions : DataFrame) (competitor_id : cell)
  : result DataFrame :=
  submitters <- getitems submissions ["Spotify URI"; "Submitter ID"] ;;
  comp_votes <- merge votes submitters "Spotify URI" "Spotify URI"
                  ("_x", "_y") ;;
  where_eq comp_votes "Submitter ID" competitor_id.

(** [votes[votes['Voter ID'] == competitor['ID']]] : the votes cast. *)
Definition votes_cast (votes : DataFrame) (competitor_id : cell)
  : result DataFrame :=
  where_eq votes "Voter ID" competitor_id.

(** The body of the loop over [competitors.iterrows()]. *)
Definition competitor_stat (competitors submissions votes : DataFrame)
    (competitor : row) : result stats :=
  submitter_ids <- getitem submissions "Submitter ID" ;;
  competitor_id <- field (columns competitors) competitor "ID" ;;
  let comp_submissions :=
    mkDF (columns submissions)
      (boolean_index (rows submissions)
         (map (fun x => py_eq x competitor_id) submitter_ids)) in
  let submission_count := len comp_submissions in
  comp_votes <- votes_received votes submissions competitor_id ;;
  points <- getitem comp_votes "Points Assigned" ;;
  total_points_received <- series_sum points ;;
  avg_points_received <-
    (if Nat.ltb 0 (len comp_votes) then series_mean points
     else Ok (Num 0)) ;;
  comp_voting <- votes_cast votes competitor_id ;;
  let voting_count := len comp_voting in
  avg_points_given <-
    (if Nat.ltb 0 voting_count then
       given <- getitem comp_voting "Points Assigned" ;;
       series_mean given
     else Ok (Num 0)) ;;
  commented <- with_comment comp_submissions ;;
  let comment_count := len commented in
  name <- field (columns competitors) competitor "Name" ;;
  Ok {| Name := name;
        Submissions := count submission_count;
        Points_Received := total_points_received;
        Avg_Points_Received := avg_points_received;
        Votes_Cast := count voting_count;
        Avg_Points_Given := avg_points_given;
        Comments := count comment_count |}.

Definition competitor_stats (competitors submissions votes : DataFrame)
  : result (list stats) :=
  mapM (competitor_stat competitors submissions votes) (rows competitors).

Definition stats_columns : list string :=
  ["Name"; "Submissions"; "Points Received"; "Avg Points Received";
   "Votes Cast"; "Avg Points Given"; "Comments"].

Definition stats_row (s : stats) : row :=
  [Name s; Submissions s; Points_Received s; Avg_Points_Received s;
   Votes_Cast s; Avg_Points_Given s; Comments s].

(** [pd.DataFrame(competitor_stats)]: the dict keys become the columns; an
    empty list gives a frame without columns. *)
Definition comp_df (competitor_stats : list stats) : DataFrame :=
  match competitor_stats with
  | [] => mkDF [] []
  | _ => mkDF stats_columns (map stats_row competitor_stats)
  end.

(* ================================================================== *)
(** ** [nlargest] *)

(** The number in column [i] of a row (0 where there is none). *)
Definition qkey (i : nat) (r : row) : Q :=
  match at_ i r with
  | Num q => q
  | _ => 0%Q
  end.

(** Insertion of a row into a list that is in non-increasing key order:
    after the rows of strictly greater key, before those of equal key. *)
Fixpoint place (key : row -> Q) (x : row) (l : list row) : list row :=
  match l with
  | [] => [x]
  | y :: ys => if Qle_bool (key y) (key x) then x :: y :: ys
               else y :: place key x ys
  end.

(** Rows in non-increasing key order, rows of equal key in their order of
    appearance ([keep='first']). *)
Fixpoint by_key_desc (key : row -> Q) (l : list row) : list row :=
  match l with
  | [] => []
  | x :: xs => place key x (by_key_desc key xs)
  end.

(** [df.nlargest(n, col)] with the default [keep='first']: the first [n]
    rows in descending order of [col]; rows with a missing value are set
    aside and come last; a non-numeric column is a [TypeError]. *)
Definition nlargest (n : nat) (col : string) (df : DataFrame)
  : result DataFrame :=
  i <- col_loc (columns df) col ;;
  _ <- mapM to_num (map (at_ i) (rows df)) ;;
  let dropped := filter (fun r => notna (at_ i r)) (rows df) in
  let nan_rows := filter (fun r => negb (notna (at_ i r))) (rows df) in
  Ok (mkDF (columns df)
        (firstn n (by_key_desc (qkey i) dropped ++ nan_rows))).

(** The two rankings of the competitor tab. *)
Definition top_submitters (competitor_stats : list stats) : result DataFrame :=
  nlargest 10 "Submissions" (comp_df competitor_stats).

Definition top_point_receivers (competitor_stats : list stats)
  : result DataFrame :=
  nlargest 10 "Points Received" (comp_df competitor_stats).

(* ================================================================== *)
(** ** [main]: comments tab, most active commenters *)

(** The body of the loop over the commented submissions: the name of the
    first competitor whose id is the submitter's, or a placeholder built from
    the id.  [str] is Python's [str()], which the f-string applies to the id. *)
Definition commenter_name (str : cell -> string) (competitors : DataFrame)
    (submission_columns : list string) (submission : row) : result cell :=
  submitter_id <- field submission_columns submission "Submitter ID" ;;
  competitor <- where_eq competitors "ID" submitter_id ;;
  if Nat.ltb 0 (len competitor) then
    match rows competitor with
    | first :: _ => field (columns competitor) first "Name"
    | [] => Raise IndexError
    end
  else
    Ok (Str (String.append "Unknown ("
               (String.append (str submitter_id) ")"))).

(** [commenter_names] once the loop has run. *)
Definition commenter_names (str : cell -> string)
    (competitors filtered_submissions : DataFrame) : result (list cell) :=
  submissions_with_comments <- with_comment filtered_submissions ;;
  mapM (commenter_name str competitors (columns submissions_with_comments))
       (rows submissions_with_comments).

(* ================================================================== *)
(** ** [main]: round tab *)

(** One entry of [round_stats], the dict built per round when all rounds
    are shown.  The counts are what [len] returns. *)
Module RoundTable.
Record entry : Type := mk {
  Round : cell;
  Submissions : nat;
  Total_Votes : nat;
  Avg_Points : cell;
  Comments : nat
}.
End RoundTable.

(** The body of the loop over [rounds.iterrows()]. *)
Definition round_stat (rounds submissions votes : DataFrame) (round_data : row)
  : result RoundTable.entry :=
  submission_rounds <- getitem submissions "Round ID" ;;
  round_id <- field (columns rounds) round_data "ID" ;;
  let round_submissions :=
    mkDF (columns submissions)
      (boolean_index (rows submissions)
         (map (fun x => py_eq x round_id) submission_rounds)) in
  vote_rounds <- getitem votes "Round ID" ;;
  let round_votes :=
    mkDF (columns votes)
      (boolean_index (rows votes)
         (map (fun x => py_eq x round_id) vote_rounds)) in
  name <- field (columns rounds) round_data "Name" ;;
  points <- getitem round_votes "Points Assigned" ;;
  avg_points <- series_mean points ;;
  commented <- with_comment round_submissions ;;
  Ok {| RoundTable.Round := name;
        RoundTable.Submissions := len round_submissions;
        RoundTable.Total_Votes := len round_votes;
        RoundTable.Avg_Points := avg_points;
        RoundTable.Comments := len commented |}.

Definition round_stats (rounds submissions votes : DataFrame)
  : result (list RoundTable.entry) :=
  mapM (round_stat rounds submissions votes) (rows rounds).

(** The four metrics shown when one round is selected: submissions, votes,
    average points (before it is formatted) and comments. *)
Definition round_metrics (rounds submissions votes : DataFrame)
    (selected_round : cell) : result (nat * nat * cell * nat) :=
  round_id <- lookup_id rounds selected_round ;;
  round_submissions <- where_eq submissions "Round ID" round_id ;;
  round_votes <- where_eq votes "Round ID" round_id ;;
  points <- getitem round_votes "Points Assigned" ;;
  avg_points <- series_mean points ;;
  commented <- with_comment round_submissions ;;
  Ok (len round_submissions, len round_votes, avg_points, len commented).

(* ================================================================== *)
(** ** [main]: competitor tab, one competitor *)

(** The four metrics shown when one competitor is selected: submissions,
    points received, votes cast and comments. *)
Definition competitor_metrics (competitors submissions votes : DataFrame)
    (selected_competitor : cell) : result (cell * cell * cell * cell) :=
  competitor_id <- lookup_id competitors selected_competitor ;;
  comp_submissions <- where_eq submissions "Submitter ID" competitor_id ;;
  comp_votes_received <- votes_received votes submissions competitor_id ;;
  comp_votes_cast <- votes_cast votes competitor_id ;;
  points <- getitem comp_votes_received "Points Assigned" ;;
  points_received <- series_sum points ;;
  commented <- with_comment comp_submissions ;;
  Ok (count (len comp_submissions), points_received,
      count (len comp_votes_cast), count (len commented)).

(* ================================================================== *)
(** ** Grouping *)

(** The order in which pandas lists group keys: numbers by value, text by
    code point, numbers before text. *)
Definition cell_leb (a b : cell) : bool :=
  match a, b with
  | Num p, Num q => Qle_bool p q
  | Str s, Str t => String.leb s t
  | Time s, Time t => Z.leb s t
  | NaN, _ => true
  | Num _, _ => true
  | Str _, Time _ => true
  | _, _ => false
  end.

Fixpoint insert_sorted (k : cell) (ks : list cell) : list cell :=
  match ks with
  | [] => [k]
  | x :: xs => if cell_leb k x then k :: x :: xs else x :: insert_sorted k xs
  end.

(** The group keys of a column: its distinct values, in ascending order;
    missing values form no group (the default [dropna=True]). *)
Fixpoint group_keys (s : list cell) : list cell :=
  match s with
  | [] => []
  | x :: xs =>
      let ks := group_keys xs in
      if notna x && negb (existsb (py_eq x) ks) then insert_sorted x ks
      else ks
  end.

(** [df.groupby(key).size().reset_index(name=name)] : one row per group, the
    key and the number of rows of the group. *)
Definition groupby_size (df : DataFrame) (key name : string)
  : result DataFrame :=
  keys <- getitem df key ;;
  if String.eqb key name then Raise ValueError
  else
    Ok (mkDF [key; name]
          (map (fun k =>
                  [k; count (length (filter (fun x => py_eq x k) keys))])
               (group_keys keys))).






(** The rows of a left join: every left row, in order, with each matching
    right row or, when there is none, with missing values in their place. *)
Definition left_join_rows (li ri width : nat) (rpart : row -> row)
    (lrows rrows : list row) : list row :=
  flat_map
    (fun l =>
       match filter (fun r => key_eqb (at_ li l) (at_ ri r)) rrows with
       | [] => [l ++ repeat NaN width]
       | matches => map (fun r => l ++ rpart r) matches
       end)
    lrows.

(** [left.merge(right, left_on=lk, right_on=rk, how='left',
    suffixes=(ls, rs))] : as [merge], but a left row without a match is
    kept. *)
Definition merge_left (left right : DataFrame) (left_on right_on : string)
    (suffixes : string * string) : result DataFrame :=
  ri <- col_loc (columns right) right_on ;;
  li <- col_loc (columns left) left_on ;;
  let shared := String.eqb left_on right_on in
  let rcols :=
    if shared then remove_nth ri (columns right) else columns right in
  let rpart := fun r : row => if shared then remove_nth ri r else r in
  let lnames :=
    map (fun c => if mem c rcols then String.append c (fst suffixes) else c)
        (columns left) in
  let rnames :=
    map (fun c => if mem c (columns left)
                  then String.append c (snd suffixes) else c)
        rcols in
  Ok (mkDF (lnames ++ rnames)
           (left_join_rows li ri (length rcols) rpart
              (rows left) (rows right))).

(* ================================================================== *)
(** ** [main]: the grouped tables *)

(** Overview tab: [submissions_per_round]. *)
Definition submissions_per_round (submissions_with_rounds : DataFrame)
  : result DataFrame :=
  groupby_size submissions_with_rounds "Name" "Count".


(** Round tab, one round: [voter_participation]. *)
Definition voter_participation (round_votes competitors : DataFrame)
  : result DataFrame :=
  groups <- groupby_size round_votes "Voter ID" "Votes_Cast" ;;
  names <- getitems competitors ["ID"; "Name"] ;;
  merge_left groups names "Voter ID" "ID" ("_x", "_y").



(** Comments tab: [comments_per_round], the number of rows of each group for
    which [x.notna() & (x != '')] holds of the comment. *)
Definition comments_per_round (filtered_submissions : DataFrame)
  : result DataFrame :=
  i <- col_loc (columns filtered_submissions) "Name" ;;
  c <- col_loc (columns filtered_submissions) "Comment" ;;
  Ok (mkDF ["Name"; "Comment_Count"]
        (map (fun k =>
                let x := map (at_ c)
                             (filter (fun r => py_eq (at_ i r) k)
                                     (rows filtered_submissions)) in
                [k; count (length (filter
                                     (fun a => notna a && py_ne a (Str ""))
                                     x))])
             (group_keys (map (at_ i) (rows filtered_submissions))))).

(** Comments tab, sample comments: the round shown under a sampled comment,
    [row] being a row of the commented submissions. *)
Definition sample_round_name (submissions_with_rounds : DataFrame)
    (comment_columns : list string) (row_ : row) : result cell :=
  tracks <- getitem submissions_with_rounds "Spotify URI" ;;
  track <- field comment_columns row_ "Spotify URI" ;;
  let found :=
    mkDF (columns submissions_with_rounds)
      (boolean_index (rows submissions_with_rounds)
         (map (fun x => py_eq x track) tracks)) in
  if Nat.ltb 0 (len found) then
    again <- where_eq submissions_with_rounds "Spotify URI" track ;;
    names <- getitem again "Name" ;;
    iloc0 names
  else Ok (Str "Unknown Round").


(** The choices of the two select boxes of the sidebar. *)
Definition round_names (rounds : DataFrame) : result (list cell) :=
  names <- getitem rounds "Name" ;;
  Ok (Str "All Rounds" :: names).

Definition competitor_names (competitors : DataFrame) : result (list cell) :=
  names <- getitem competitors "Name" ;;
  Ok (Str "All Competitors" :: names).

(* ================================================================== *)
(** ** Sample data *)

Definition is_digit (a : ascii) : bool :=
  let n := nat_of_ascii a in Nat.leb 48 n && Nat.leb n 57.

Definition is_separator (a : ascii) : bool :=
  existsb (Ascii.eqb a) ["-"; ":"; "T"; "Z"; " "; "."; "+"]%char.

Fixpoint digits_value (s : string) (acc : Z) : option Z :=
  match s with
  | EmptyString => Some acc
  | String a rest =>
      if is_digit a then
        digits_value rest (10 * acc + Z.of_nat (nat_of_ascii a - 48))%Z
      else if is_separator a then digits_value rest acc
      else None
  end.

(** A stand-in for the parser behind [pd.to_datetime], enough for the sample
    data: it accepts non-empty text over the ISO 8601 alphabet and orders
    instants by their digits. *)
Definition sample_parser (s : string) : option Z :=
  match s with
  | EmptyString => None
  | _ => digits_value s 0%Z
  end.

(** A host whose four CSV files hold the given frames. *)
Definition host_of (competitors rounds submissions votes : DataFrame) : Host :=
  mkHost
    (fun path =>
       if String.eqb path "data/competitors.csv" then Ok competitors
       else if String.eqb path "data/rounds.csv" then Ok rounds
       else if String.eqb path "data/submissions.csv" then Ok submissions
       else if String.eqb path "data/votes.csv" then Ok votes
       else Raise FileError)
    sample_parser.

Definition competitor_columns : list string := ["ID"; "Name"].
Definition round_columns : list string := ["ID"; "Name"; "Created"].
Definition submission_columns : list string :=
  ["Round ID"; "Spotify URI"; "Submitter ID"; "Title"; "Artist(s)";
   "Comment"; "Created"].
Definition vote_columns : list string :=
  ["Round ID"; "Spotify URI"; "Voter ID"; "Points Assigned"; "Created"].

Definition pts (z : Z) : cell := Num (inject_Z z).

(** Three competitors, one round; A submits S1, B submits S2; C gives S1 five
    points and S2 three, A gives S2 four. *)
Definition league_competitors : DataFrame :=
  mkDF competitor_columns
    [[Str "cA"; Str "A"]; [Str "cB"; Str "B"]; [Str "cC"; Str "C"]].

Definition league_rounds : DataFrame :=
  mkDF round_columns [[Str "R1"; Str "Round 1"; Str "2024-01-01T09:00:00Z"]].

Definition league_submissions : DataFrame :=
  mkDF submission_columns
    [[Str "R1"; Str "spotify:track:S1"; Str "cA"; Str "S1"; Str "Artist 1";
      Str "my favourite"; Str "2024-01-02T09:00:00Z"];
     [Str "R1"; Str "spotify:track:S2"; Str "cB"; Str "S2"; Str "Artist 2";
      NaN; Str "2024-01-02T10:00:00Z"]].

Definition league_votes : DataFrame :=
  mkDF vote_columns
    [[Str "R1"; Str "spotify:track:S1"; Str "cC"; pts 5;
      Str "2024-01-03T09:00:00Z"];
     [Str "R1"; Str "spotify:track:S2"; Str "cC"; pts 3;
      Str "2024-01-03T09:01:00Z"];
     [Str "R1"; Str "spotify:track:S2"; Str "cA"; pts 4;
      Str "2024-01-03T09:02:00Z"]].

Definition league : Host :=
  host_of league_competitors league_rounds league_submissions league_votes.

(** The same track entered in two rounds: A enters T in R1, B enters T in R2,
    and C votes for T in R1. *)
Definition replay_rounds : DataFrame :=
  mkDF round_columns
    [[Str "R1"; Str "Round 1"; Str "2024-01-01T09:00:00Z"];
     [Str "R2"; Str "Round 2"; Str "2024-02-01T09:00:00Z"]].

Definition replay_submissions : DataFrame :=
  mkDF submission_columns
    [[Str "R1"; Str "spotify:track:T"; Str "cA"; Str "T"; Str "Artist";
      NaN; Str "2024-01-02T09:00:00Z"];
     [Str "R2"; Str "spotify:track:T"; Str "cB"; Str "T"; Str "Artist";
      NaN; Str "2024-02-02T09:00:00Z"]].

Definition replay_votes : DataFrame :=
  mkDF vote_columns
    [[Str "R1"; Str "spotify:track:T"; Str "cC"; pts 5;
      Str "2024-01-03T09:00:00Z"]].

Definition replay : Host :=
  host_of league_competitors replay_rounds replay_submissions replay_votes.

(** The league with one more vote, by C, for a track nobody submitted. *)
Definition stray_vote : row :=
  [Str "R1"; Str "spotify:track:S9"; Str "cC"; pts 2;
   Str "2024-01-03T09:03:00Z"].

Definition stray_votes : DataFrame :=
  mkDF vote_columns (rows league_votes ++ [stray_vote]).




(** The league with a round whose creation time is not a date. *)
Definition undated_rounds : DataFrame :=
  mkDF round_columns [[Str "R1"; Str "Round 1"; Str "last Tuesday"]].

Definition undated : Host :=
  host_of league_competitors undated_rounds league_submissions league_votes.

(** The league with a second round that has no submission and no vote. *)
Definition quiet_rounds : DataFrame :=
  mkDF round_columns
    [[Str "R1"; Str "Round 1"; Str "2024-01-01T09:00:00Z"];
     [Str "R2"; Str "Round 2"; Str "2024-02-01T09:00:00Z"]].

Definition quiet : Host :=
  host_of league_competitors quiet_rounds league_submissions league_votes.

(** Two rounds with one display name. *)
Definition twin_rounds : DataFrame :=
  mkDF round_columns
    [[Str "R1"; Str "Finale"; Str "2024-01-01T09:00:00Z"];
     [Str "R2"; Str "Finale"; Str "2024-02-01T09:00:00Z"]].

Definition twin : Host :=
  host_of league_competitors twin_rounds replay_submissions replay_votes.






(** A stand-in for Python's [str()], enough for the sample data, whose ids
    are text: text is itself and a missing value reads "nan". *)
Definition sample_str (c : cell) : string :=
  match c with
  | Str s => s
  | NaN => "nan"
  | Num _ | Time _ => "#"
  end.

(** The league's submissions and one more, commented, by a submitter who is
    not in the competitors file. *)
Definition guest_submissions : DataFrame :=
  mkDF submission_columns
    (rows league_submissions ++
     [[Str "R1"; Str "spotify:track:S3"; Str "cZ"; Str "S3"; Str "Artist 3";
       Str "hello"; Str "2024-01-02T11:00:00Z"]]).

(** The tables of a host that loads, and empty tables otherwise. *)
Definition tables_of (h : Host) : tables :=
  match load_data_try h with
  | Ok t => t
  | Raise _ =>
      let e := mkDF [] [] in (e, e, e, e, e, e)
  end.

(** The two enriched views of a host. *)
Definition views_of (h : Host) : views :=
  let '(_, _, _, _, votes_with_voters, submissions_with_rounds) :=
    tables_of h in
  (votes_with_voters, submissions_with_rounds).

(* ================================================================== *)
(** ** Vocabulary of the statements *)

(** Two outcomes agree when both are the same value or both are errors. *)
Definition agree {A : Type} (x y : result A) : Prop :=
  match x, y with
  | Ok a, Ok b => a = b
  | Raise _, Raise _ => True
  | _, _ => False
  end.

(** The outcome is a value, not an exception. *)
Definition is_ok {A : Type} (r : result A) : bool :=
  match r with Ok _ => true | Raise _ => false end.

Definition has_columns (df : DataFrame) (cs : list string) : bool :=
  forallb (fun c => mem c (columns df)) cs.




(** The cells a row of [submissions_with_rounds] contributes to an enriched
    vote, and those a competitor contributes. *)
Definition submission_cells (title artist round name comment : nat) (sub : row)
  : row :=
  [at_ title sub; at_ artist sub; at_ round sub; at_ name sub;
   at_ comment sub].

Definition voter_cells (id name : nat) (competitor : row) : row :=
  [at_ id competitor; at_ name competitor].

(** The rows of [votes_with_voters] that one vote gives rise to. *)
Definition enriched (v_uri v_voter s_uri title artist round name comment
    c_id c_name : nat) (swr_rows competitor_rows : list row) (vote : row)
  : list row :=
  flat_map
    (fun sub =>
       map (fun competitor =>
              vote ++ submission_cells title artist round name comment sub
                   ++ voter_cells c_id c_name competitor)
           (filter (fun competitor =>
                      key_eqb
                        (at_ v_voter
                           (vote ++ submission_cells title artist round name
                                      comment sub))
                        (at_ c_id competitor))
                   competitor_rows))
    (filter (fun sub => key_eqb (at_ v_uri vote) (at_ s_uri sub)) swr_rows).





(** [df] is [df0] with its creation times parsed: the same labels and, row
    by row, the same cells, except that the cell under ['Created'] holds
    what [pd.to_datetime] makes of the one read. *)
Definition dated (h : Host) (df0 df : DataFrame) : Prop :=
  columns df = columns df0 /\
  exists i,
    index_of "Created" (columns df0) = Some i /\
    Forall2
      (fun r0 r =>
         length r = length r0 /\
         to_datetime_cell h (at_ i r0) = Ok (at_ i r) /\
         forall j, j <> i -> at_ j r = at_ j r0)
      (rows df0) (rows df).

(** No two rows of the list carry matching keys in column [i]. *)
Definition distinct_keys (i : nat) (l : list row) : Prop :=
  ForallOrdPairs (fun a b => key_eqb (at_ i a) (at_ i b) = false) l.

(** The test behind [with_comment], on one cell. *)
Definition has_comment (c : cell) : bool := notna c && py_ne c (Str "").

(* ================================================================== *)
(** * Properties *)

(** ** The error monad *)

Lemma bind_ok {A B : Type} (r : result A) (k : A -> result B) (b : B) :
  bind r k = Ok b -> exists a, r = Ok a /\ k a = Ok b.
Proof.
  destruct r as [a|e]; simpl; intros H; [eauto | discriminate].
Qed.

Tactic Notation "unbind" hyp(H) "as" ident(a) ident(Ha) ident(Hk) :=
  match type of H with
  | bind ?r ?k = Ok ?b =>
      let T := fresh "T" in
      pose proof (bind_ok r k b H) as T; clear H;
      destruct T as (a & Ha & Hk); cbv beta in Hk
  end.

Lemma mapM_length {A B : Type} (f : A -> result B) (l : list A) (l' : list B) :
  mapM f l = Ok l' -> length l' = length l.
Proof.
  revert l'. induction l as [|x xs IH]; simpl; intros l' H.
  - injection H as <-. reflexivity.
  - unbind H as y Hy H1. unbind H1 as ys Hys H2.
    injection H2 as <-. simpl. f_equal. now apply IH.
Qed.

(** ** Column lookup *)

Lemma index_of_mem (c : string) (cols : list string) :
  mem c cols = match index_of c cols with Some _ => true | None => false end.
Proof.
  unfold mem. induction cols as [|x xs IH]; simpl; [reflexivity|].
  destruct (String.eqb c x); simpl; [reflexivity|].
  rewrite IH. now destruct (index_of c xs).
Qed.

Lemma index_of_lt (c : string) (cols : list string) (i : nat) :
  index_of c cols = Some i -> (i < length cols)%nat.
Proof.
  revert i. induction cols as [|x xs IH]; simpl; intros i H; [discriminate|].
  destruct (String.eqb c x).
  - injection H as <-. lia.
  - destruct (index_of c xs) as [j|]; simpl in H; [|discriminate].
    injection H as <-. specialize (IH j eq_refl). lia.
Qed.

Lemma index_of_app_l (c : string) (l1 l2 : list string) (i : nat) :
  index_of c l1 = Some i -> index_of c (l1 ++ l2) = Some i.
Proof.
  revert i. induction l1 as [|x xs IH]; simpl; intros i H; [discriminate|].
  destruct (String.eqb c x); [exact H|].
  destruct (index_of c xs) as [j|]; simpl in H; [|discriminate].
  now rewrite (IH j eq_refl).
Qed.

Lemma index_of_app_none (c : string) (l1 l2 : list string) :
  index_of c l1 = None -> index_of c l2 = None ->
  index_of c (l1 ++ l2) = None.
Proof.
  intros H1 H2. induction l1 as [|x xs IH]; simpl in *; [exact H2|].
  destruct (String.eqb c x); [discriminate|].
  destruct (index_of c xs); [discriminate|]. now rewrite IH.
Qed.

(** ** Boolean indexing is filtering *)

Lemma boolean_index_map {A : Type} (f : A -> bool) (l : list A) :
  boolean_index l (map f l) = filter f l.
Proof.
  induction l as [|x xs IH]; simpl; [reflexivity|].
  rewrite IH. reflexivity.
Qed.

Lemma where_eq_found (df : DataFrame) (c : string) (v : cell) (i : nat) :
  index_of c (columns df) = Some i ->
  where_eq df c v =
  Ok (mkDF (columns df) (filter (fun r => py_eq (at_ i r) v) (rows df))).
Proof.
  intros H. unfold where_eq, getitem, col_loc. rewrite H. simpl.
  rewrite map_map.
  now rewrite (boolean_index_map (fun r => py_eq (at_ i r) v)).
Qed.

Lemma where_eq_missing (df : DataFrame) (c : string) (v : cell) :
  index_of c (columns df) = None -> where_eq df c v = Raise (KeyError c).
Proof.
  intros H. unfold where_eq, getitem, col_loc. now rewrite H.
Qed.

Lemma filter_swap {A : Type} (f g : A -> bool) (l : list A) :
  filter f (filter g l) = filter g (filter f l).
Proof.
  induction l as [|x xs IH]; simpl; [reflexivity|].
  destruct (f x) eqn:Ef, (g x) eqn:Eg; simpl;
    rewrite ?Ef, ?Eg; now rewrite IH.
Qed.

Lemma filter_twice {A : Type} (f : A -> bool) (l : list A) :
  filter f (filter f l) = filter f l.
Proof.
  induction l as [|x xs IH]; simpl; [reflexivity|].
  destruct (f x) eqn:Ef; simpl; rewrite ?Ef; now rewrite IH.
Qed.

(** ** Filters *)

(** C4. The round filter and the competitor filter commute: applied in
    either order to the pair of enriched views they either both fail (a
    filtered column is missing) or give the same pair of filtered frames;
    and each filter applied twice gives what it gives applied once. *)
Theorem filters_commute_and_idempotent (r c : cell) (v : views) :
  agree (v1 <- apply_round_filter r v ;; apply_competitor_filter c v1)
        (v1 <- apply_competitor_filter c v ;; apply_round_filter r v1)
  /\ (v1 <- apply_round_filter r v ;; apply_round_filter r v1)
     = apply_round_filter r v
  /\ (v1 <- apply_competitor_filter c v ;; apply_competitor_filter c v1)
     = apply_competitor_filter c v.
Proof.
  destruct v as [vv sv].
  unfold apply_round_filter, apply_competitor_filter.
  destruct (index_of "Round ID" (columns vv)) as [a|] eqn:Ea;
  destruct (index_of "Round ID" (columns sv)) as [b|] eqn:Eb;
  destruct (index_of "Voter ID" (columns vv)) as [d|] eqn:Ed;
  destruct (index_of "Submitter ID" (columns sv)) as [e|] eqn:Ee;
  repeat first
    [ rewrite (where_eq_found _ _ _ _ Ea) | rewrite (where_eq_found _ _ _ _ Eb)
    | rewrite (where_eq_found _ _ _ _ Ed) | rewrite (where_eq_found _ _ _ _ Ee)
    | rewrite (where_eq_missing _ _ _ Ea) | rewrite (where_eq_missing _ _ _ Eb)
    | rewrite (where_eq_missing _ _ _ Ed) | rewrite (where_eq_missing _ _ _ Ee)
    | rewrite (where_eq_found (mkDF _ _) _ _ _ Ea)
    | rewrite (where_eq_found (mkDF _ _) _ _ _ Eb)
    | rewrite (where_eq_found (mkDF _ _) _ _ _ Ed)
    | rewrite (where_eq_found (mkDF _ _) _ _ _ Ee)
    | rewrite (where_eq_missing (mkDF _ _) _ _ Ea)
    | rewrite (where_eq_missing (mkDF _ _) _ _ Eb)
    | rewrite (where_eq_missing (mkDF _ _) _ _ Ed)
    | rewrite (where_eq_missing (mkDF _ _) _ _ Ee)
    | progress simpl ];
  rewrite ?filter_twice;
  repeat split; try reflexivity; try exact I.
  all: f_equal; f_equal; apply filter_swap.
Qed.

(** In the league, round R1 then competitor A, and competitor A then round
    R1, both leave A's one vote and A's one submission. *)
Example filters_commute_in_the_league :
  (v1 <- apply_round_filter (Str "R1") (views_of league) ;;
   apply_competitor_filter (Str "cA") v1)
  = (v1 <- apply_competitor_filter (Str "cA") (views_of league) ;;
     apply_round_filter (Str "R1") v1)
  /\ (v1 <- apply_round_filter (Str "R1") (views_of league) ;;
      v2 <- apply_competitor_filter (Str "cA") v1 ;;
      Ok (len (fst v2), len (snd v2))) = Ok (1, 1)%nat.
Proof. split; vm_compute; reflexivity. Qed.

Lemma py_eq_Str (x : cell) (id : string) :
  py_eq x (Str id) = true <-> x = Str id.
Proof.
  destruct x as [|s|q|t]; simpl; try (split; [discriminate|discriminate]).
  rewrite String.eqb_eq. split; [now intros ->|now intros [= ->]].
Qed.

(** C5. The competitor filter keeps, of the enriched submissions, exactly
    the rows whose ['Submitter ID'] is the competitor and, of the enriched
    votes, exactly the rows whose ['Voter ID'] is the competitor: the votes
    the competitor cast, whoever submitted the track voted for. *)
Theorem competitor_filter_is_asymmetric
    (c : cell) (votes_view submissions_view fv fs : DataFrame) :
  apply_competitor_filter c (votes_view, submissions_view) = Ok (fv, fs) ->
  exists iv isub,
    index_of "Voter ID" (columns votes_view) = Some iv /\
    index_of "Submitter ID" (columns submissions_view) = Some isub /\
    fv = mkDF (columns votes_view)
           (filter (fun r => py_eq (at_ iv r) c) (rows votes_view)) /\
    fs = mkDF (columns submissions_view)
           (filter (fun r => py_eq (at_ isub r) c) (rows submissions_view)) /\
    (forall id r, c = Str id ->
       (In r (rows fv) <-> In r (rows votes_view) /\ at_ iv r = Str id) /\
       (In r (rows fs) <->
        In r (rows submissions_view) /\ at_ isub r = Str id)).
Proof.
  unfold apply_competitor_filter. intros H.
  destruct (index_of "Voter ID" (columns votes_view)) as [iv|] eqn:Ev;
    [rewrite (where_eq_found _ _ _ _ Ev) in H
    |rewrite (where_eq_missing _ _ _ Ev) in H; discriminate].
  destruct (index_of "Submitter ID" (columns submissions_view))
    as [isub|] eqn:Es;
    [rewrite (where_eq_found _ _ _ _ Es) in H
    |rewrite (where_eq_missing _ _ _ Es) in H; discriminate].
  simpl in H. injection H as <- <-.
  exists iv, isub. do 4 (split; [reflexivity|]).
  intros id r ->. simpl. rewrite !filter_In, !py_eq_Str. tauto.
Qed.

Lemma competitor_filter_is_asymmetric_witness :
  exists fv fs,
    apply_competitor_filter (Str "cA") (views_of league) = Ok (fv, fs) /\
    len fv = 1%nat /\ len fs = 1%nat /\
    exists iv isub,
      index_of "Voter ID" (columns (fst (views_of league))) = Some iv /\
      index_of "Submitter ID" (columns (snd (views_of league))) = Some isub /\
      fv = mkDF (columns (fst (views_of league)))
             (filter (fun r => py_eq (at_ iv r) (Str "cA"))
                     (rows (fst (views_of league)))) /\
      fs = mkDF (columns (snd (views_of league)))
             (filter (fun r => py_eq (at_ isub r) (Str "cA"))
                     (rows (snd (views_of league)))) /\
      (forall id r, Str "cA" = Str id ->
         (In r (rows fv) <->
          In r (rows (fst (views_of league))) /\ at_ iv r = Str id) /\
         (In r (rows fs) <->
          In r (rows (snd (views_of league))) /\ at_ isub r = Str id)).
Proof.
  eexists. eexists. split; [vm_compute; reflexivity|].
  split; [reflexivity|]. split; [reflexivity|].
  apply (competitor_filter_is_asymmetric (Str "cA")
           (fst (views_of league)) (snd (views_of league))).
  vm_compute. reflexivity.
Defined.

(** ** Loading, step by step *)

Lemma zip_with_length {A B C : Type} (f : A -> B -> C) (xs : list A)
    (ys : list B) :
  length ys = length xs -> length (zip_with f xs ys) = length xs.
Proof.
  revert ys. induction xs as [|x xs IH]; intros [|y ys]; simpl;
    try reflexivity; try discriminate.
  intros [= H]. f_equal. now apply IH.
Qed.

Lemma convert_created_ok (h : Host) (df df' : DataFrame) :
  convert_created h df = Ok df' ->
  columns df' = columns df /\ len df' = len df.
Proof.
  unfold convert_created, getitem, setitem. intros H.
  unbind H as s Hs H. unbind Hs as i Hi Hs. injection Hs as <-.
  unbind H as t Ht H. unbind H as j Hj H. injection H as <-.
  split; [reflexivity|]. unfold len. simpl.
  apply zip_with_length. apply mapM_length in Ht.
  now rewrite Ht, length_map.
Qed.

(** Everything the [try] block did when it ran to its end. *)
Lemma load_data_try_inv (h : Host)
    (c r s v vwv swr : DataFrame) :
  load_data_try h = Ok (c, r, s, v, vwv, swr) ->
  exists r0 s0 v0 round_names submission_info vws competitor_names,
    read_csv h "data/competitors.csv" = Ok c /\
    read_csv h "data/rounds.csv" = Ok r0 /\
    read_csv h "data/submissions.csv" = Ok s0 /\
    read_csv h "data/votes.csv" = Ok v0 /\
    convert_created h r0 = Ok r /\
    convert_created h s0 = Ok s /\
    convert_created h v0 = Ok v /\
    getitems r ["ID"; "Name"] = Ok round_names /\
    merge s round_names "Round ID" "ID" ("", "_round") = Ok swr /\
    getitems swr
      ["Spotify URI"; "Title"; "Artist(s)"; "Round ID"; "Name"; "Comment"]
      = Ok submission_info /\
    merge v submission_info "Spotify URI" "Spotify URI" ("", "_submission")
      = Ok vws /\
    getitems c ["ID"; "Name"] = Ok competitor_names /\
    merge vws competitor_names "Voter ID" "ID" ("", "_voter") = Ok vwv.
Proof.
  unfold load_data_try. intros H.
  unbind H as c' Hc H. unbind H as r0 Hr0 H. unbind H as s0 Hs0 H.
  unbind H as v0 Hv0 H. unbind H as r' Hr H. unbind H as s' Hs H.
  unbind H as v' Hv H. unbind H as rn Hrn H. unbind H as swr' Hswr H.
  unbind H as si Hsi H. unbind H as vws Hvws H. unbind H as cn Hcn H.
  unbind H as vwv' Hvwv H. injection H as <- <- <- <- <- <-.
  exists r0, s0, v0, rn, si, vws, cn. repeat split; assumption.
Qed.

Lemma load_data_some (h : Host) (c : DataFrame)
    (r s v vwv swr : option DataFrame) :
  load_data h = (Some c, r, s, v, vwv, swr) ->
  exists r' s' v' vwv' swr',
    r = Some r' /\ s = Some s' /\ v = Some v' /\ vwv = Some vwv' /\
    swr = Some swr' /\ load_data_try h = Ok (c, r', s', v', vwv', swr').
Proof.
  unfold load_data.
  destruct (load_data_try h) as [[[[[[c' r'] s'] v'] vwv'] swr']|e];
    intros [= <- <- <- <- <- <-]. 
  exists r', s', v', vwv', swr'. repeat split; reflexivity.
Qed.

(** ** Overview *)

(** C10. Whatever round and competitor are selected, the four overview
    counts are the row counts of the four CSV files as read: rounds,
    competitors, submissions, votes.  No filter choice changes them. *)
Theorem overview_metrics_ignore_filters
    (h : Host) (selected_round selected_competitor : cell)
    (m : nat * nat * nat * nat) :
  main_overview h selected_round selected_competitor = Ok (Rendered m) ->
  (exists c r s v,
     read_csv h "data/competitors.csv" = Ok c /\
     read_csv h "data/rounds.csv" = Ok r /\
     read_csv h "data/submissions.csv" = Ok s /\
     read_csv h "data/votes.csv" = Ok v /\
     m = (len r, len c, len s, len v)) /\
  (forall other_round other_competitor m',
     main_overview h other_round other_competitor = Ok (Rendered m') ->
     m' = m).
Proof.
  unfold main_overview, main_with. intros H.
  destruct (load_data h) as [[[[[oc orr] os] ov] ovwv] oswr] eqn:L.
  destruct oc as [c|]; [|discriminate].
  destruct (load_data_some _ _ _ _ _ _ _ L)
    as (r & s & v & vwv & swr & -> & -> & -> & -> & -> & T).
  unbind H as fv Hfv H. unbind H as a Ha H. injection H as <-.
  simpl in Ha. injection Ha as <-.
  split.
  - destruct (load_data_try_inv _ _ _ _ _ _ _ T)
      as (r0 & s0 & v0 & rn & si & vws & cn & Hc & Hr0 & Hs0 & Hv0 &
          Hr & Hs & Hv & _).
    exists c, r0, s0, v0. repeat split; try assumption.
    apply convert_created_ok in Hr, Hs, Hv.
    destruct Hr as [_ ->], Hs as [_ ->], Hv as [_ ->]. reflexivity.
  - intros sr' sc' m' H'.
    unbind H' as fv' Hfv' H'. unbind H' as a' Ha' H'. injection H' as <-.
    simpl in Ha'. now injection Ha' as <-.
Qed.

Lemma overview_metrics_ignore_filters_witness :
  main_overview league (Str "Round 1") (Str "A")
    = Ok (Rendered (1, 3, 2, 3)%nat) /\
  (exists c r s v,
     read_csv league "data/competitors.csv" = Ok c /\
     read_csv league "data/rounds.csv" = Ok r /\
     read_csv league "data/submissions.csv" = Ok s /\
     read_csv league "data/votes.csv" = Ok v /\
     (1, 3, 2, 3)%nat = (len r, len c, len s, len v)) /\
  (forall other_round other_competitor m',
     main_overview league other_round other_competitor = Ok (Rendered m') ->
     m' = (1, 3, 2, 3)%nat).
Proof.
  split; [vm_compute; reflexivity|].
  apply (overview_metrics_ignore_filters league (Str "Round 1") (Str "A")).
  vm_compute. reflexivity.
Defined.

(** ** Lookup by display name *)

Lemma filter_first {A : Type} (f : A -> bool) (before after : list A) (x : A) :
  (forall y, In y before -> f y = false) -> f x = true ->
  filter f (before ++ x :: after) = x :: filter f after.
Proof.
  intros Hb Hx. induction before as [|y ys IH]; simpl.
  - now rewrite Hx.
  - rewrite (Hb y (or_introl eq_refl)). apply IH.
    intros z Hz. apply Hb. now right.
Qed.

(** C9, on the code: two rounds are both called "Finale"; looking the name
    up raises nothing and answers with the id of the one listed first. *)
Lemma shared_name_resolves_to_first :
  let '(_, rounds, _, _, _, _) := tables_of twin in
  In [Str "R1"; Str "Finale"; Time 20240101090000] (rows rounds) /\
  In [Str "R2"; Str "Finale"; Time 20240201090000] (rows rounds) /\
  lookup_id rounds (Str "Finale") = Ok (Str "R1").
Proof.
  vm_compute. repeat split; auto.
Qed.

(** C9, as the code has it.  The lookup of a display name answers with the
    id of the first row, in file order, that carries the name; rows further
    down that carry the same name are ignored and nothing is reported. *)
Theorem lookup_id_takes_first_match
    (df : DataFrame) (name : cell) (i_name i_id : nat)
    (before after : list row) (r : row) :
  index_of "Name" (columns df) = Some i_name ->
  index_of "ID" (columns df) = Some i_id ->
  rows df = before ++ r :: after ->
  (forall x, In x before -> py_eq (at_ i_name x) name = false) ->
  py_eq (at_ i_name r) name = true ->
  lookup_id df name = Ok (at_ i_id r).
Proof.
  intros Hn Hi Hrows Hb Hr. unfold lookup_id.
  rewrite (where_eq_found _ _ _ _ Hn). simpl.
  unfold getitem, col_loc. simpl. rewrite Hi. simpl.
  rewrite Hrows.
  rewrite (filter_first (fun x => py_eq (at_ i_name x) name) before after r Hb Hr).
  reflexivity.
Qed.

Lemma lookup_id_takes_first_match_witness :
  lookup_id twin_rounds (Str "Finale") = Ok (Str "R1").
Proof.
  apply (lookup_id_takes_first_match twin_rounds (Str "Finale") 1 0 []
           [[Str "R2"; Str "Finale"; Str "2024-02-01T09:00:00Z"]]
           [Str "R1"; Str "Finale"; Str "2024-01-01T09:00:00Z"]).
  - reflexivity.
  - reflexivity.
  - reflexivity.
  - intros x [].
  - reflexivity.
Defined.

(** ** Comment statistics *)

Lemma comment_statistics_empty (df : DataFrame) :
  mem "Comment" (columns df) = true -> rows df = [] ->
  comment_statistics df = Raise ZeroDivisionError.
Proof.
  intros Hc He. unfold comment_statistics, with_comment, getitem, col_loc.
  rewrite index_of_mem in Hc.
  destruct (index_of "Comment" (columns df)); [|discriminate].
  unfold len. simpl. rewrite He. reflexivity.
Qed.

(** C6, on the code.  Round 2 has no submission and no vote.  Selecting it
    gives two empty filtered frames without error, and [total_comments] is 0;
    the comment rate then divides by the number of filtered submissions,
    which is 0, and the script stops on [ZeroDivisionError].  The same
    happens for competitor C, who voted but submitted nothing. *)
Theorem comment_rate_of_empty_selection_raises :
  (let '(c, r, _, _, vwv, swr) := tables_of quiet in
   exists fv fs,
     apply_filters r c vwv swr (Str "Round 2") (Str "All Competitors")
       = Ok (fv, fs) /\
     len fv = 0%nat /\ len fs = 0%nat /\
     (commented <- with_comment fs ;; Ok (len commented)) = Ok 0%nat /\
     comment_statistics fs = Raise ZeroDivisionError) /\
  main_comments quiet (Str "Round 2") (Str "All Competitors")
    = Raise ZeroDivisionError /\
  main_comments league (Str "All Rounds") (Str "C")
    = Raise ZeroDivisionError.
Proof.
  vm_compute. split; [|split; reflexivity].
  eexists. eexists. repeat split.
Qed.

(** ** Per-competitor statistics *)

Lemma mapM_Forall2 {A B : Type} (f : A -> result B) (l : list A) (l' : list B) :
  mapM f l = Ok l' -> Forall2 (fun x y => f x = Ok y) l l'.
Proof.
  revert l'. induction l as [|x xs IH]; simpl; intros l' H.
  - injection H as <-. constructor.
  - unbind H as y Hy H. unbind H as ys Hys H. injection H as <-.
    constructor; auto.
Qed.




(** ** Rankings *)

Section Placing.
Variable key : row -> Q.

Lemma place_perm (x : row) (l : list row) :
  Permutation (place key x l) (x :: l).
Proof.
  induction l as [|y ys IH]; simpl; [reflexivity|].
  destruct (Qle_bool (key y) (key x)); [reflexivity|].
  rewrite IH. apply perm_swap.
Qed.

Lemma by_key_desc_perm (l : list row) : Permutation (by_key_desc key l) l.
Proof.
  induction l as [|x xs IH]; simpl; [reflexivity|].
  rewrite place_perm. now constructor.
Qed.





End Placing.


Lemma filter_all {A : Type} (f : A -> bool) (l : list A) :
  Forall (fun x => f x = true) l -> filter f l = l.
Proof.
  induction 1 as [|x xs Hx _ IH]; simpl; [reflexivity|].
  now rewrite Hx, IH.
Qed.

Lemma filter_none {A : Type} (f : A -> bool) (l : list A) :
  Forall (fun x => f x = false) l -> filter f l = [].
Proof.
  induction 1 as [|x xs Hx _ IH]; simpl; [reflexivity|].
  now rewrite Hx, IH.
Qed.



Lemma col_loc_ok (cols : list string) (c : string) (i : nat) :
  col_loc cols c = Ok i -> index_of c cols = Some i.
Proof.
  unfold col_loc. destruct (index_of c cols); [now intros [= ->]|discriminate].
Qed.




(** ** Joins *)

Lemma merge_inv (left right : DataFrame) (left_on right_on : string)
    (suffixes : string * string) (out : DataFrame) :
  merge left right left_on right_on suffixes = Ok out ->
  exists li ri,
    index_of left_on (columns left) = Some li /\
    index_of right_on (columns right) = Some ri /\
    rows out
      = inner_join_rows li ri
          (fun r => if String.eqb left_on right_on then remove_nth ri r else r)
          (rows left) (rows right) /\
    columns out
      = map (fun c =>
               if mem c (if String.eqb left_on right_on
                         then remove_nth ri (columns right)
                         else columns right)
               then String.append c (fst suffixes) else c) (columns left)
        ++ map (fun c => if mem c (columns left)
                         then String.append c (snd suffixes) else c)
             (if String.eqb left_on right_on
              then remove_nth ri (columns right) else columns right).
Proof.
  unfold merge. intros H.
  unbind H as ri Hri H. unbind H as li Hli H. injection H as <-.
  exists li, ri. auto using col_loc_ok.
Qed.

Lemma getitems_inv (df : DataFrame) (cs : list string) (out : DataFrame) :
  getitems df cs = Ok out ->
  exists locs,
    Forall2 (fun c i => index_of c (columns df) = Some i) cs locs /\
    columns out = cs /\
    rows out = map (fun r => map (fun i => at_ i r) locs) (rows df).
Proof.
  unfold getitems. intros H. unbind H as locs Hl H. injection H as <-.
  exists locs. split; [|auto].
  apply mapM_Forall2 in Hl.
  eapply Forall2_impl; [|exact Hl]. intros c i. apply col_loc_ok.
Qed.

Ltac invert_Forall2 :=
  repeat match goal with
         | H : Forall2 _ (_ :: _) _ |- _ => inversion H; subst; clear H
         | H : Forall2 _ [] _ |- _ => inversion H; subst; clear H
         end.

Lemma append_empty (s : string) : String.append s "" = s.
Proof. induction s as [|a s IH]; simpl; [reflexivity|now rewrite IH]. Qed.

Lemma map_empty_suffix (clash : string -> bool) (cols : list string) :
  map (fun c => if clash c then String.append c "" else c) cols = cols.
Proof.
  induction cols as [|x xs IH]; simpl; [reflexivity|].
  rewrite IH, append_empty. now destruct (clash x).
Qed.

Lemma flat_map_flat_map {A B C : Type} (f : B -> list C) (g : A -> list B)
    (l : list A) :
  flat_map f (flat_map g l) = flat_map (fun x => flat_map f (g x)) l.
Proof.
  induction l as [|x xs IH]; simpl; [reflexivity|].
  now rewrite flat_map_app, IH.
Qed.

Lemma flat_map_map {A B C : Type} (f : B -> list C) (g : A -> B) (l : list A) :
  flat_map f (map g l) = flat_map (fun x => f (g x)) l.
Proof.
  induction l as [|x xs IH]; simpl; [reflexivity|]. now rewrite IH.
Qed.

Lemma filter_map_swap {A B : Type} (p : B -> bool) (g : A -> B) (l : list A) :
  filter p (map g l) = map g (filter (fun x => p (g x)) l).
Proof.
  induction l as [|x xs IH]; simpl; [reflexivity|].
  destruct (p (g x)); simpl; now rewrite IH.
Qed.

Lemma at_app_l (i : nat) (r extra : row) :
  (i < length r)%nat -> at_ i (r ++ extra) = at_ i r.
Proof. intros H. unfold at_. now apply app_nth1. Qed.

(** The enriched votes, row for row, once loading has succeeded. *)
Lemma votes_with_voters_rows (h : Host) (c r s v vwv swr : DataFrame) :
  load_data_try h = Ok (c, r, s, v, vwv, swr) ->
  exists v_uri v_voter s_uri title artist round name comment c_id c_name,
    index_of "Spotify URI" (columns v) = Some v_uri /\
    index_of "Voter ID" (columns v) = Some v_voter /\
    index_of "Spotify URI" (columns swr) = Some s_uri /\
    index_of "Title" (columns swr) = Some title /\
    index_of "Artist(s)" (columns swr) = Some artist /\
    index_of "Round ID" (columns swr) = Some round /\
    index_of "Name" (columns swr) = Some name /\
    index_of "Comment" (columns swr) = Some comment /\
    index_of "ID" (columns c) = Some c_id /\
    index_of "Name" (columns c) = Some c_name /\
    rows vwv
      = flat_map (enriched v_uri v_voter s_uri title artist round name comment
                    c_id c_name (rows swr) (rows c))
          (rows v).
Proof.
  intros H.
  destruct (load_data_try_inv _ _ _ _ _ _ _ H)
    as (r0 & s0 & v0 & rn & si & vws & cn & _ & _ & _ & _ & _ & _ & _ &
        _ & _ & Hsi & Hvws & Hcn & Hvwv).
  apply getitems_inv in Hsi. destruct Hsi as (ls & Fs & Csi & Rsi).
  apply getitems_inv in Hcn. destruct Hcn as (lc & Fc & Ccn & Rcn).
  invert_Forall2.
  match goal with
  | H1 : index_of "Spotify URI" (columns swr) = Some ?a,
    H2 : index_of "Title" (columns swr) = Some ?b,
    H3 : index_of "Artist(s)" (columns swr) = Some ?d,
    H4 : index_of "Round ID" (columns swr) = Some ?e,
    H5 : index_of "Name" (columns swr) = Some ?f,
    H6 : index_of "Comment" (columns swr) = Some ?g,
    H7 : index_of "ID" (columns c) = Some ?i,
    H8 : index_of "Name" (columns c) = Some ?j |- _ =>
      rename a into s_uri, b into title, d into artist, e into round,
             f into name, g into comment, i into c_id, j into c_name
  end.
  apply merge_inv in Hvws.
  destruct Hvws as (v_uri & ri & Hvu & Hri & Rvws & Cvws).
  rewrite Csi in Hri. simpl in Hri.
  assert (ri = 0%nat) by congruence. subst ri. clear Hri.
  apply merge_inv in Hvwv.
  destruct Hvwv as (iw & ri' & Hiw & Hri' & Rvwv & _).
  rewrite Ccn in Hri'. simpl in Hri'.
  assert (ri' = 0%nat) by congruence. subst ri'. clear Hri'.
  assert (Hvv : exists v_voter,
             index_of "Voter ID" (columns v) = Some v_voter /\ iw = v_voter).
  { rewrite Cvws in Hiw. simpl fst in Hiw. rewrite map_empty_suffix in Hiw.
    destruct (index_of "Voter ID" (columns v)) as [k|] eqn:Ek.
    - rewrite (index_of_app_l _ _ _ _ Ek) in Hiw. injection Hiw as <-. eauto.
    - exfalso. rewrite index_of_app_none in Hiw; [discriminate|exact Ek|].
      rewrite Csi. simpl.
      destruct (mem "Title" (columns v)), (mem "Artist(s)" (columns v)),
        (mem "Round ID" (columns v)), (mem "Name" (columns v)),
        (mem "Comment" (columns v)); reflexivity. }
  destruct Hvv as (v_voter & Hvv & ->).
  exists v_uri, v_voter, s_uri, title, artist, round, name, comment,
    c_id, c_name.
  repeat (split; [assumption|]).
  rewrite Rvwv, Rvws, Rcn, Rsi. unfold inner_join_rows.
  rewrite flat_map_flat_map. apply flat_map_ext. intros vote.
  rewrite filter_map_swap, map_map, flat_map_map. unfold enriched.
  apply flat_map_ext. intros sub. simpl.
  rewrite filter_map_swap, map_map.
  apply map_ext. intros competitor. now rewrite <- app_assoc.
Qed.

(** ** When loading succeeds *)

Lemma is_ok_mapM {A B : Type} (f : A -> result B) (l : list A) :
  is_ok (mapM f l) = forallb (fun x => is_ok (f x)) l.
Proof.
  induction l as [|x xs IH]; simpl; [reflexivity|].
  destruct (f x); simpl; [|reflexivity].
  rewrite <- IH. now destruct (mapM f xs).
Qed.

Lemma is_ok_col_loc (cols : list string) (c : string) :
  is_ok (col_loc cols c) = mem c cols.
Proof.
  rewrite index_of_mem. unfold col_loc. now destruct (index_of c cols).
Qed.

Lemma forallb_same {A : Type} (f g : A -> bool) (l : list A) :
  (forall x, f x = g x) -> forallb f l = forallb g l.
Proof.
  intros E. induction l as [|x xs IH]; simpl; [reflexivity|].
  now rewrite E, IH.
Qed.


Lemma is_ok_getitems (df : DataFrame) (cs : list string) :
  is_ok (getitems df cs) = has_columns df cs.
Proof.
  unfold getitems, has_columns.
  rewrite <- (forallb_same _ _ cs (is_ok_col_loc (columns df))), <- is_ok_mapM.
  now destruct (mapM (col_loc (columns df)) cs).
Qed.



Lemma mem_app (c : string) (l1 l2 : list string) :
  mem c (l1 ++ l2) = mem c l1 || mem c l2.
Proof. apply existsb_app. Qed.




Lemma getitems_columns (df : DataFrame) (cs : list string) (out : DataFrame) :
  getitems df cs = Ok out -> columns out = cs.
Proof.
  intros H. apply getitems_inv in H. now destruct H as (_ & _ & -> & _).
Qed.



Lemma load_data_of_try (h : Host) (c r s v vwv swr : DataFrame) :
  load_data h = (Some c, Some r, Some s, Some v, Some vwv, Some swr) ->
  load_data_try h = Ok (c, r, s, v, vwv, swr).
Proof.
  intros H. destruct (load_data_some _ _ _ _ _ _ _ H)
    as (r' & s' & v' & vwv' & swr' & E1 & E2 & E3 & E4 & E5 & T).
  congruence.
Qed.



(** ** Loading is all or nothing *)



(** ** What the joins keep *)

(** C1, on the code.  Track T was entered in R1 and again in R2, and C voted
    for it in R1.  The one vote yields two enriched rows, and the second
    pairs the R1 vote with the R2 submission and its round name. *)
Lemma vote_joins_the_other_round_too :
  let '(_, _, _, v, vwv, _) := tables_of replay in
  len v = 1%nat /\ len vwv = 2%nat /\
  exists row,
    In row (rows vwv) /\
    field (columns vwv) row "Round ID" = Ok (Str "R1") /\
    field (columns vwv) row "Round ID_submission" = Ok (Str "R2") /\
    field (columns vwv) row "Name" = Ok (Str "Round 2").
Proof.
  vm_compute. split; [reflexivity|]. split; [reflexivity|].
  eexists. split; [right; left; reflexivity|]. repeat split.
Qed.

(** C1, as the code has it.  A row of the enriched votes is a vote, followed
    by the title, artist, round id, round name and comment of a row of
    [submissions_with_rounds] with the same ['Spotify URI'], followed by the
    id and name of the competitor whose id is the vote's ['Voter ID']; and
    every such combination is a row.  The round of the vote and the round of
    the submission are not compared. *)
Theorem votes_join_submissions_on_track_alone
    (h : Host) (c r s v vwv swr : DataFrame) :
  load_data h = (Some c, Some r, Some s, Some v, Some vwv, Some swr) ->
  Forall (fun vote => length vote = length (columns v)) (rows v) ->
  exists v_uri v_voter s_uri title artist round name comment c_id c_name,
    index_of "Spotify URI" (columns v) = Some v_uri /\
    index_of "Voter ID" (columns v) = Some v_voter /\
    index_of "Spotify URI" (columns swr) = Some s_uri /\
    index_of "Title" (columns swr) = Some title /\
    index_of "Artist(s)" (columns swr) = Some artist /\
    index_of "Round ID" (columns swr) = Some round /\
    index_of "Name" (columns swr) = Some name /\
    index_of "Comment" (columns swr) = Some comment /\
    index_of "ID" (columns c) = Some c_id /\
    index_of "Name" (columns c) = Some c_name /\
    forall row,
      In row (rows vwv) <->
      exists vote sub competitor,
        In vote (rows v) /\ In sub (rows swr) /\ In competitor (rows c) /\
        key_eqb (at_ v_uri vote) (at_ s_uri sub) = true /\
        key_eqb (at_ v_voter vote) (at_ c_id competitor) = true /\
        row = vote ++ submission_cells title artist round name comment sub
                   ++ voter_cells c_id c_name competitor.
Proof.
  intros L WF. apply load_data_of_try in L.
  destruct (votes_with_voters_rows _ _ _ _ _ _ _ L)
    as (v_uri & v_voter & s_uri & title & artist & round & name & comment &
        c_id & c_name & H1 & H2 & H3 & H4 & H5 & H6 & H7 & H8 & H9 & H10 & R).
  exists v_uri, v_voter, s_uri, title, artist, round, name, comment,
    c_id, c_name.
  do 10 (split; [assumption|]).
  assert (K : forall vote extra, In vote (rows v) ->
                at_ v_voter (vote ++ extra) = at_ v_voter vote).
  { intros vote extra Hin. apply at_app_l.
    rewrite Forall_forall in WF. rewrite (WF vote Hin).
    now apply index_of_lt with (c := "Voter ID"). }
  intros row. rewrite R, in_flat_map. unfold enriched. split.
  - intros (vote & Hv & Hrow). apply in_flat_map in Hrow.
    destruct Hrow as (sub & Hs & Hrow). apply in_map_iff in Hrow.
    destruct Hrow as (competitor & <- & Hc).
    apply filter_In in Hs, Hc. destruct Hs as [Hs Ks], Hc as [Hc Kc].
    rewrite K in Kc by assumption.
    exists vote, sub, competitor. auto 10.
  - intros (vote & sub & competitor & Hv & Hs & Hc & Ks & Kc & ->).
    exists vote. split; [assumption|]. apply in_flat_map.
    exists sub. split; [apply filter_In; auto|]. apply in_map_iff.
    exists competitor. split; [reflexivity|]. apply filter_In.
    rewrite K by assumption. auto.
Qed.



(** ** The theorems at the sample data *)

Lemma votes_join_submissions_on_track_alone_witness :
  exists c r s v vwv swr,
    load_data replay = (Some c, Some r, Some s, Some v, Some vwv, Some swr) /\
    Forall (fun vote => length vote = length (columns v)) (rows v) /\
    exists v_uri v_voter s_uri title artist round name comment c_id c_name,
      index_of "Spotify URI" (columns v) = Some v_uri /\
      index_of "Voter ID" (columns v) = Some v_voter /\
      index_of "Spotify URI" (columns swr) = Some s_uri /\
      index_of "Title" (columns swr) = Some title /\
      index_of "Artist(s)" (columns swr) = Some artist /\
      index_of "Round ID" (columns swr) = Some round /\
      index_of "Name" (columns swr) = Some name /\
      index_of "Comment" (columns swr) = Some comment /\
      index_of "ID" (columns c) = Some c_id /\
      index_of "Name" (columns c) = Some c_name /\
      forall row,
        In row (rows vwv) <->
        exists vote sub competitor,
          In vote (rows v) /\ In sub (rows swr) /\ In competitor (rows c) /\
          key_eqb (at_ v_uri vote) (at_ s_uri sub) = true /\
          key_eqb (at_ v_voter vote) (at_ c_id competitor) = true /\
          row = vote ++ submission_cells title artist round name comment sub
                     ++ voter_cells c_id c_name competitor.
Proof.
  do 6 eexists. split; [vm_compute; reflexivity|].
  split; [repeat constructor|].
  eapply (votes_join_submissions_on_track_alone replay).
  - vm_compute. reflexivity.
  - repeat constructor.
Defined.




(* ================================================================== *)
(** * Further properties of the code *)

(** ** What loading leaves untouched *)

Lemma set_nth_length (i : nat) (v : cell) (r : row) :
  length (set_nth i v r) = length r.
Proof.
  revert r. induction i as [|i IH]; intros [|x xs]; simpl; try reflexivity.
  now rewrite IH.
Qed.

Lemma set_nth_other (i j : nat) (v : cell) (r : row) :
  j <> i -> at_ j (set_nth i v r) = at_ j r.
Proof.
  unfold at_. revert j r. induction i as [|i IH]; intros j [|x xs] Hne; simpl;
    try reflexivity.
  - destruct j; [congruence|reflexivity].
  - destruct j; [reflexivity|]. apply IH. congruence.
Qed.

Lemma set_nth_parsed (h : Host) (i : nat) (v : cell) (r : row) :
  to_datetime_cell h (at_ i r) = Ok v -> at_ i (set_nth i v r) = v.
Proof.
  unfold at_. revert r. induction i as [|i IH]; intros [|x xs]; simpl; intros H;
    try (now injection H as <-); auto.
Qed.

Lemma convert_created_dated (h : Host) (df0 df : DataFrame) :
  convert_created h df0 = Ok df -> dated h df0 df.
Proof.
  unfold convert_created, getitem, setitem. intros H.
  unbind H as s Hs H. unbind Hs as i Hi Hs. injection Hs as <-.
  unbind H as t Ht H. unbind H as j Hj H. injection H as <-.
  rewrite Hi in Hj. injection Hj as <-.
  split; [reflexivity|]. exists i. split; [now apply col_loc_ok|]. simpl.
  apply mapM_Forall2 in Ht. revert t Ht.
  induction (rows df0) as [|r rs IH]; intros t Ht; simpl in *.
  - inversion Ht; subst. constructor.
  - inversion Ht as [|? v ? t' Hv Ht']; subst. simpl. constructor.
    + split; [apply set_nth_length|].
      split; [now rewrite (set_nth_parsed h)|].
      intros k Hk. now apply set_nth_other.
    + now apply IH.
Qed.

(** X1. When loading succeeds, the competitors table is the file as read,
    and the rounds, submissions and votes tables are the files as read with
    nothing changed but the cells under ['Created'], which hold the parsed
    instants: same labels, same rows in the same order, same other cells. *)
Theorem loading_only_parses_creation_times
    (h : Host) (c r s v vwv swr : DataFrame) :
  load_data h = (Some c, Some r, Some s, Some v, Some vwv, Some swr) ->
  read_csv h "data/competitors.csv" = Ok c /\
  exists r0 s0 v0,
    read_csv h "data/rounds.csv" = Ok r0 /\
    read_csv h "data/submissions.csv" = Ok s0 /\
    read_csv h "data/votes.csv" = Ok v0 /\
    dated h r0 r /\ dated h s0 s /\ dated h v0 v.
Proof.
  intros L. apply load_data_of_try in L.
  destruct (load_data_try_inv _ _ _ _ _ _ _ L)
    as (r0 & s0 & v0 & rn & si & vws & cn & Hc & Hr0 & Hs0 & Hv0 &
        Hr & Hs & Hv & _).
  split; [exact Hc|]. exists r0, s0, v0.
  auto 10 using convert_created_dated.
Qed.

Lemma loading_only_parses_creation_times_witness :
  exists c r s v vwv swr,
    load_data league = (Some c, Some r, Some s, Some v, Some vwv, Some swr) /\
    read_csv league "data/competitors.csv" = Ok c /\
    exists r0 s0 v0,
      read_csv league "data/rounds.csv" = Ok r0 /\
      read_csv league "data/submissions.csv" = Ok s0 /\
      read_csv league "data/votes.csv" = Ok v0 /\
      dated league r0 r /\ dated league s0 s /\ dated league v0 v.
Proof.
  do 6 eexists. split; [vm_compute; reflexivity|].
  eapply (loading_only_parses_creation_times league).
  vm_compute. reflexivity.
Defined.

(** ** The columns of the loaded views *)

Lemma is_ok_where_eq (df : DataFrame) (c : string) (v : cell) :
  is_ok (where_eq df c v) = mem c (columns df).
Proof.
  rewrite index_of_mem. destruct (index_of c (columns df)) as [i|] eqn:E.
  - now rewrite (where_eq_found _ _ _ _ E).
  - now rewrite (where_eq_missing _ _ _ E).
Qed.

Lemma merged_columns (left right out : DataFrame) (left_on right_on : string)
    (rs : string) :
  merge left right left_on right_on ("", rs) = Ok out ->
  exists ri,
    index_of right_on (columns right) = Some ri /\
    mem left_on (columns left) = true /\
    columns out
    = columns left
      ++ map (fun c => if mem c (columns left) then String.append c rs else c)
           (if String.eqb left_on right_on
            then remove_nth ri (columns right) else columns right).
Proof.
  intros H. apply merge_inv in H.
  destruct H as (li & ri & Hl & Hr & _ & C).
  exists ri. split; [exact Hr|]. split; [now rewrite index_of_mem, Hl|].
  rewrite C. cbn [fst snd]. now rewrite map_empty_suffix.
Qed.

(** X2. Once loading has succeeded the enriched views have every column the
    filters and the comment statistics ask for, with one exception: the
    round filter never raises, and the competitor filter raises exactly when
    the submissions file has no ['Submitter ID'] column, which loading does
    not look at. *)
Theorem filters_on_loaded_views
    (h : Host) (c r s v vwv swr s0 : DataFrame) :
  load_data h = (Some c, Some r, Some s, Some v, Some vwv, Some swr) ->
  read_csv h "data/submissions.csv" = Ok s0 ->
  has_columns vwv
    ["Round ID"; "Voter ID"; "Spotify URI"; "Name"; "Name_voter"] = true /\
  has_columns swr
    ["Round ID"; "Spotify URI"; "Title"; "Artist(s)"; "Comment"; "Name"]
    = true /\
  (forall round_id, is_ok (apply_round_filter round_id (vwv, swr)) = true) /\
  (forall competitor_id,
     is_ok (apply_competitor_filter competitor_id (vwv, swr))
     = mem "Submitter ID" (columns s0)).
Proof.
  intros L Hs0. apply load_data_of_try in L.
  destruct (load_data_try_inv _ _ _ _ _ _ _ L)
    as (r0 & s0' & v0 & rn & si & vws & cn & _ & _ & Hs0' & _ &
        _ & Hs & _ & Hrn & Hswr & Hsi & Hvws & Hcn & Hvwv).
  rewrite Hs0 in Hs0'. injection Hs0' as <-.
  apply convert_created_ok in Hs. destruct Hs as [Cs _].
  pose proof (getitems_columns _ _ _ Hrn) as Crn.
  pose proof (getitems_columns _ _ _ Hsi) as Csi.
  pose proof (getitems_columns _ _ _ Hcn) as Ccn.
  pose proof (is_ok_getitems swr
                ["Spotify URI"; "Title"; "Artist(s)"; "Round ID"; "Name";
                 "Comment"]) as Esw.
  rewrite Hsi in Esw. unfold has_columns in Esw. simpl in Esw.
  symmetry in Esw. repeat (apply andb_prop in Esw; destruct Esw as [? Esw]).
  destruct (merged_columns _ _ _ _ _ _ Hswr) as (ri1 & _ & _ & C1).
  destruct (merged_columns _ _ _ _ _ _ Hvws) as (ri2 & Hri2 & Hu & C2).
  destruct (merged_columns _ _ _ _ _ _ Hvwv) as (ri3 & Hri3 & Hw & C3).
  rewrite Csi in Hri2. simpl in Hri2.
  assert (ri2 = 0%nat) by congruence. subst ri2.
  rewrite Ccn in Hri3. simpl in Hri3.
  assert (ri3 = 0%nat) by congruence. subst ri3.
  rewrite Crn in C1. rewrite Csi in C2. rewrite Ccn in C3.
  simpl in C1, C2, C3.
  assert (Vr : mem "Round ID" (columns vws) = true).
  { rewrite C2, mem_app.
    destruct (mem "Title" (columns v)), (mem "Artist(s)" (columns v)),
      (mem "Round ID" (columns v)), (mem "Name" (columns v)),
      (mem "Comment" (columns v)); reflexivity. }
  assert (Vn : mem "Name" (columns vws) = true).
  { rewrite C2, mem_app.
    destruct (mem "Title" (columns v)), (mem "Artist(s)" (columns v)),
      (mem "Round ID" (columns v)), (mem "Name" (columns v)),
      (mem "Comment" (columns v)); reflexivity. }
  assert (Vu : mem "Spotify URI" (columns vws) = true).
  { rewrite C2, mem_app, Hu. reflexivity. }
  assert (A1 : has_columns vwv
                 ["Round ID"; "Voter ID"; "Spotify URI"; "Name"; "Name_voter"]
               = true).
  { unfold has_columns. simpl. rewrite C3, !mem_app, Vr, Hw, Vu, Vn. simpl.
    destruct (mem "ID" (columns vws)); simpl; now rewrite ?orb_true_r. }
  assert (A2 : has_columns swr
                 ["Round ID"; "Spotify URI"; "Title"; "Artist(s)"; "Comment";
                  "Name"] = true).
  { unfold has_columns. simpl.
    repeat match goal with H : mem _ (columns swr) = true |- _ =>
                             rewrite H; clear H end.
    reflexivity. }
  split; [exact A1|]. split; [exact A2|].
  unfold has_columns in A1, A2. simpl in A1, A2.
  repeat (apply andb_prop in A1; destruct A1 as [? A1]).
  repeat (apply andb_prop in A2; destruct A2 as [? A2]).
  split.
  - intros rid. unfold apply_round_filter.
    pose proof (is_ok_where_eq vwv "Round ID" rid) as E1.
    pose proof (is_ok_where_eq swr "Round ID" rid) as E2.
    destruct (where_eq vwv "Round ID" rid); simpl in *; [|congruence].
    destruct (where_eq swr "Round ID" rid); simpl in *; [reflexivity|congruence].
  - intros cid. unfold apply_competitor_filter.
    pose proof (is_ok_where_eq vwv "Voter ID" cid) as E1.
    pose proof (is_ok_where_eq swr "Submitter ID" cid) as E2.
    assert (E3 : mem "Submitter ID" (columns swr)
                 = mem "Submitter ID" (columns s0)).
    { rewrite C1, mem_app, Cs.
      destruct (mem "ID" (columns s0)), (mem "Name" (columns s0));
        simpl; now rewrite orb_false_r. }
    rewrite <- E3, <- E2.
    destruct (where_eq vwv "Voter ID" cid); simpl in *; [|congruence].
    now destruct (where_eq swr "Submitter ID" cid).
Qed.

Lemma filters_on_loaded_views_witness :
  exists c r s v vwv swr s0,
    load_data league = (Some c, Some r, Some s, Some v, Some vwv, Some swr) /\
    read_csv league "data/submissions.csv" = Ok s0 /\
    has_columns vwv
      ["Round ID"; "Voter ID"; "Spotify URI"; "Name"; "Name_voter"] = true /\
    has_columns swr
      ["Round ID"; "Spotify URI"; "Title"; "Artist(s)"; "Comment"; "Name"]
      = true /\
    (forall round_id, is_ok (apply_round_filter round_id (vwv, swr)) = true) /\
    (forall competitor_id,
       is_ok (apply_competitor_filter competitor_id (vwv, swr))
       = mem "Submitter ID" (columns s0)).
Proof.
  do 7 eexists. split; [vm_compute; reflexivity|].
  split; [reflexivity|].
  eapply (filters_on_loaded_views league).
  - vm_compute. reflexivity.
  - reflexivity.
Defined.

(** ** Selections that match nothing *)

Lemma py_eq_NaN_r (x : cell) : py_eq x NaN = false.
Proof. now destruct x. Qed.

(** X3. In a table that has the ['Name'] and ['ID'] columns, looking up a
    display name raises [IndexError] exactly when no row carries the name.
    A missing name is never found: a missing value equals nothing, so an
    entity whose name cell is empty cannot be selected by name. *)
Theorem lookup_id_without_match
    (df : DataFrame) (name : cell) (i_name i_id : nat) :
  index_of "Name" (columns df) = Some i_name ->
  index_of "ID" (columns df) = Some i_id ->
  (lookup_id df name = Raise IndexError <->
   Forall (fun r => py_eq (at_ i_name r) name = false) (rows df)) /\
  lookup_id df NaN = Raise IndexError.
Proof.
  intros Hn Hi.
  assert (E : forall x,
             lookup_id df x
             = match filter (fun r => py_eq (at_ i_name r) x) (rows df) with
               | [] => Raise IndexError
               | r :: _ => Ok (at_ i_id r)
               end).
  { intros x. unfold lookup_id. rewrite (where_eq_found _ _ _ _ Hn). simpl.
    unfold getitem, col_loc. simpl. rewrite Hi. simpl.
    now destruct (filter _ (rows df)). }
  split.
  - rewrite E. split.
    + intros H. rewrite Forall_forall. intros r Hr.
      destruct (py_eq (at_ i_name r) name) eqn:P; [|reflexivity].
      assert (Hin : In r (filter (fun r => py_eq (at_ i_name r) name) (rows df)))
        by (apply filter_In; auto).
      destruct (filter _ (rows df)); [contradiction|discriminate].
    + intros H. now rewrite filter_none.
  - rewrite E, filter_none; [reflexivity|].
    rewrite Forall_forall. intros r _. apply py_eq_NaN_r.
Qed.

Lemma lookup_id_without_match_witness :
  (lookup_id league_competitors (Str "D") = Raise IndexError <->
   Forall (fun r => py_eq (at_ 1 r) (Str "D") = false)
          (rows league_competitors)) /\
  lookup_id league_competitors NaN = Raise IndexError.
Proof.
  apply (lookup_id_without_match league_competitors (Str "D") 1 0);
    reflexivity.
Defined.

(** ** Filters only drop rows *)

Lemma filter_both {A : Type} (f g : A -> bool) (l : list A) :
  filter f (filter g l) = filter (fun x => g x && f x) l.
Proof.
  induction l as [|x xs IH]; simpl; [reflexivity|].
  destruct (g x); simpl; [destruct (f x)|]; now rewrite IH.
Qed.

Lemma filter_all_true {A : Type} (l : list A) : filter (fun _ => true) l = l.
Proof. induction l as [|x xs IH]; simpl; [reflexivity|now rewrite IH]. Qed.

Lemma filter_length_le {A : Type} (f : A -> bool) (l : list A) :
  (length (filter f l) <= length l)%nat.
Proof.
  induction l as [|x xs IH]; simpl; [lia|]. destruct (f x); simpl; lia.
Qed.

(** X4. Whatever is selected in the sidebar, the filtered frames are the
    enriched views with some rows left out: the labels are the same, the
    rows kept are in their original order with their cells untouched, and
    whether a row is kept depends on that row alone. *)
Theorem filters_only_drop_rows
    (rounds competitors vwv swr fv fs : DataFrame)
    (selected_round selected_competitor : cell) :
  apply_filters rounds competitors vwv swr selected_round selected_competitor
    = Ok (fv, fs) ->
  columns fv = columns vwv /\ columns fs = columns swr /\
  (exists keep, rows fv = filter keep (rows vwv)) /\
  (exists keep, rows fs = filter keep (rows swr)) /\
  (len fv <= len vwv)%nat /\ (len fs <= len swr)%nat.
Proof.
  unfold apply_filters. intros H. unbind H as v1 H1 H2.
  assert (S1 : columns (fst v1) = columns vwv /\
               columns (snd v1) = columns swr /\
               (exists keep, rows (fst v1) = filter keep (rows vwv)) /\
               (exists keep, rows (snd v1) = filter keep (rows swr))).
  { destruct (py_ne selected_round (Str "All Rounds")).
    - unbind H1 as rid Hrid H1. unfold apply_round_filter in H1.
      unbind H1 as a Ha H1. unbind H1 as b Hb H1. injection H1 as <-.
      unfold where_eq in Ha, Hb.
      unbind Ha as sa Hsa Ha. unbind Hb as sb Hsb Hb.
      injection Ha as <-. injection Hb as <-.
      unfold getitem in Hsa, Hsb.
      unbind Hsa as i Hi Hsa. unbind Hsb as j Hj Hsb.
      injection Hsa as <-. injection Hsb as <-. simpl.
      rewrite !map_map, !boolean_index_map.
      repeat split; try reflexivity; eexists; reflexivity.
    - injection H1 as <-. simpl.
      repeat split; try reflexivity; exists (fun _ => true);
        now rewrite filter_all_true. }
  destruct v1 as [a b]. simpl in S1.
  destruct S1 as (Ca & Cb & (ka & Ra) & (kb & Rb)).
  assert (S2 : columns fv = columns vwv /\ columns fs = columns swr /\
               (exists keep, rows fv = filter keep (rows vwv)) /\
               (exists keep, rows fs = filter keep (rows swr))).
  { destruct (py_ne selected_competitor (Str "All Competitors")).
    - unbind H2 as cid Hcid H2. unfold apply_competitor_filter in H2.
      unbind H2 as a' Ha H2. unbind H2 as b' Hb H2. injection H2 as <- <-.
      unfold where_eq in Ha, Hb.
      unbind Ha as sa Hsa Ha. unbind Hb as sb Hsb Hb.
      injection Ha as <-. injection Hb as <-.
      unfold getitem in Hsa, Hsb.
      unbind Hsa as i Hi Hsa. unbind Hsb as j Hj Hsb.
      injection Hsa as <-. injection Hsb as <-. simpl.
      rewrite !map_map, !boolean_index_map, Ra, Rb, !filter_both.
      repeat split; try assumption; eexists; reflexivity.
    - injection H2 as <- <-. repeat split; try assumption; eexists; eassumption. }
  destruct S2 as (C1 & C2 & (k1 & R1) & (k2 & R2)).
  repeat split; eauto; unfold len; rewrite ?R1, ?R2; apply filter_length_le.
Qed.

Lemma filters_only_drop_rows_witness :
  exists fv fs,
    apply_filters league_rounds league_competitors
      (fst (views_of league)) (snd (views_of league))
      (Str "Round 1") (Str "A") = Ok (fv, fs) /\
    columns fv = columns (fst (views_of league)) /\
    columns fs = columns (snd (views_of league)) /\
    (exists keep, rows fv = filter keep (rows (fst (views_of league)))) /\
    (exists keep, rows fs = filter keep (rows (snd (views_of league)))) /\
    (len fv <= len (fst (views_of league)))%nat /\
    (len fs <= len (snd (views_of league)))%nat.
Proof.
  do 2 eexists. split; [vm_compute; reflexivity|].
  apply (filters_only_drop_rows league_rounds league_competitors
           (fst (views_of league)) (snd (views_of league)) _ _
           (Str "Round 1") (Str "A")).
  vm_compute. reflexivity.
Defined.

(** ** Enriched submissions *)

Lemma submissions_with_rounds_rows (h : Host) (c r s v vwv swr : DataFrame) :
  load_data_try h = Ok (c, r, s, v, vwv, swr) ->
  exists s_round r_id r_name,
    index_of "Round ID" (columns s) = Some s_round /\
    index_of "ID" (columns r) = Some r_id /\
    index_of "Name" (columns r) = Some r_name /\
    rows swr
    = flat_map
        (fun sub =>
           map (fun rnd => sub ++ voter_cells r_id r_name rnd)
               (filter (fun rnd => key_eqb (at_ s_round sub) (at_ r_id rnd))
                       (rows r)))
        (rows s).
Proof.
  intros H.
  destruct (load_data_try_inv _ _ _ _ _ _ _ H)
    as (r0 & s0 & v0 & rn & si & vws & cn & _ & _ & _ & _ & _ & _ & _ &
        Hrn & Hswr & _).
  apply getitems_inv in Hrn. destruct Hrn as (lr & Fr & Crn & Rrn).
  invert_Forall2.
  match goal with
  | H1 : index_of "ID" (columns r) = Some ?a,
    H2 : index_of "Name" (columns r) = Some ?b |- _ =>
      rename a into r_id, b into r_name
  end.
  apply merge_inv in Hswr.
  destruct Hswr as (s_round & ri & Hsr & Hri & Rswr & _).
  rewrite Crn in Hri. simpl in Hri. assert (ri = 0%nat) by congruence. subst ri.
  exists s_round, r_id, r_name. do 3 (split; [assumption|]).
  rewrite Rswr, Rrn. unfold inner_join_rows. apply flat_map_ext. intros sub.
  rewrite filter_map_swap, map_map. reflexivity.
Qed.

(** X5. A row of [submissions_with_rounds] is a submission followed by the
    id and the name of a round whose id is the submission's ['Round ID'],
    and every such pair gives a row.  A submission whose round is not in the
    rounds file therefore has no row: it is left out without any error. *)
Theorem enriched_submissions_are_matched_pairs
    (h : Host) (c r s v vwv swr : DataFrame) :
  load_data h = (Some c, Some r, Some s, Some v, Some vwv, Some swr) ->
  exists s_round r_id r_name,
    index_of "Round ID" (columns s) = Some s_round /\
    index_of "ID" (columns r) = Some r_id /\
    index_of "Name" (columns r) = Some r_name /\
    (forall row,
       In row (rows swr) <->
       exists sub rnd,
         In sub (rows s) /\ In rnd (rows r) /\
         key_eqb (at_ s_round sub) (at_ r_id rnd) = true /\
         row = sub ++ [at_ r_id rnd; at_ r_name rnd]) /\
    (forall sub,
       (forall rnd, In rnd (rows r) ->
                    key_eqb (at_ s_round sub) (at_ r_id rnd) = false) ->
       forall rnd, ~ In (sub ++ [at_ r_id rnd; at_ r_name rnd]) (rows swr)).
Proof.
  intros L. apply load_data_of_try in L.
  destruct (submissions_with_rounds_rows _ _ _ _ _ _ _ L)
    as (s_round & r_id & r_name & H1 & H2 & H3 & R).
  exists s_round, r_id, r_name. do 3 (split; [assumption|]).
  assert (E : forall row,
             In row (rows swr) <->
             exists sub rnd,
               In sub (rows s) /\ In rnd (rows r) /\
               key_eqb (at_ s_round sub) (at_ r_id rnd) = true /\
               row = sub ++ [at_ r_id rnd; at_ r_name rnd]).
  { intros row. rewrite R, in_flat_map. split.
    - intros (sub & Hs & Hrow). apply in_map_iff in Hrow.
      destruct Hrow as (rnd & <- & Hr). apply filter_In in Hr.
      destruct Hr as [Hr K]. exists sub, rnd. auto.
    - intros (sub & rnd & Hs & Hr & K & ->). exists sub. split; [assumption|].
      apply in_map_iff. exists rnd. split; [reflexivity|].
      apply filter_In. auto. }
  split; [exact E|].
  intros sub Hnone rnd Hin. apply E in Hin.
  destruct Hin as (sub' & rnd' & Hs & Hr & K & Heq).
  change (sub ++ [at_ r_id rnd] ++ [at_ r_name rnd]
          = sub' ++ [at_ r_id rnd'] ++ [at_ r_name rnd']) in Heq.
  rewrite !app_assoc in Heq.
  apply app_inj_tail in Heq. destruct Heq as [Heq _].
  apply app_inj_tail in Heq. destruct Heq as [-> _].
  rewrite (Hnone rnd' Hr) in K. discriminate.
Qed.

Lemma enriched_submissions_are_matched_pairs_witness :
  exists c r s v vwv swr,
    load_data league = (Some c, Some r, Some s, Some v, Some vwv, Some swr) /\
    exists s_round r_id r_name,
      index_of "Round ID" (columns s) = Some s_round /\
      index_of "ID" (columns r) = Some r_id /\
      index_of "Name" (columns r) = Some r_name /\
      (forall row,
         In row (rows swr) <->
         exists sub rnd,
           In sub (rows s) /\ In rnd (rows r) /\
           key_eqb (at_ s_round sub) (at_ r_id rnd) = true /\
           row = sub ++ [at_ r_id rnd; at_ r_name rnd]) /\
      (forall sub,
         (forall rnd, In rnd (rows r) ->
                      key_eqb (at_ s_round sub) (at_ r_id rnd) = false) ->
         forall rnd, ~ In (sub ++ [at_ r_id rnd; at_ r_name rnd]) (rows swr)).
Proof.
  do 6 eexists. split; [vm_compute; reflexivity|].
  eapply (enriched_submissions_are_matched_pairs league).
  vm_compute. reflexivity.
Defined.

(** ** How many rows the joins make *)

Lemma py_eq_sym (a b : cell) : py_eq a b = py_eq b a.
Proof.
  destruct a, b; simpl; try reflexivity.
  - apply String.eqb_sym.
  - apply Qeq_bool_comm.
  - apply Z.eqb_sym.
Qed.

Lemma py_eq_trans (a b c : cell) :
  py_eq a b = true -> py_eq b c = true -> py_eq a c = true.
Proof.
  destruct a, b, c; simpl; try discriminate.
  - rewrite !String.eqb_eq. congruence.
  - apply Qeq_bool_trans.
  - rewrite !Z.eqb_eq. congruence.
Qed.

(** Two keys that both match a third match each other. *)
Lemma key_eqb_common (k a b : cell) :
  key_eqb k a = true -> key_eqb k b = true -> key_eqb a b = true.
Proof.
  destruct k, a; simpl; try discriminate; destruct b; simpl;
    try discriminate; try reflexivity; intros Ha Hb.
  - apply (py_eq_trans (Str s0) (Str s) (Str s1)); [|exact Hb].
    now rewrite py_eq_sym.
  - apply (py_eq_trans (Num q0) (Num q) (Num q1)); [|exact Hb].
    now rewrite py_eq_sym.
  - apply (py_eq_trans (Time t0) (Time t) (Time t1)); [|exact Hb].
    now rewrite py_eq_sym.
Qed.

Lemma distinct_keys_match_once (i : nat) (k : cell) (l : list row) :
  distinct_keys i l ->
  (length (filter (fun r => key_eqb k (at_ i r)) l) <= 1)%nat.
Proof.
  induction 1 as [|a l Ha Hl IH]; simpl; [lia|].
  destruct (key_eqb k (at_ i a)) eqn:Ka; [|exact IH].
  rewrite filter_none; [simpl; lia|].
  rewrite Forall_forall in *. intros b Hb.
  destruct (key_eqb k (at_ i b)) eqn:Kb; [|reflexivity].
  rewrite <- (Ha b Hb). symmetry. now apply key_eqb_common with (k := k).
Qed.

Lemma flat_map_length_le {A B : Type} (f : A -> list B) (l : list A) :
  (forall x, In x l -> (length (f x) <= 1)%nat) ->
  (length (flat_map f l) <= length l)%nat.
Proof.
  induction l as [|x xs IH]; simpl; intros H; [lia|].
  rewrite length_app. specialize (H x (or_introl eq_refl)) as Hx.
  specialize (IH (fun y Hy => H y (or_intror Hy))). lia.
Qed.

Lemma flat_map_length_eq {A B : Type} (f : A -> list B) (l : list A) :
  (forall x, In x l -> length (f x) = 1%nat) ->
  length (flat_map f l) = length l.
Proof.
  induction l as [|x xs IH]; simpl; intros H; [reflexivity|].
  rewrite length_app, (H x (or_introl eq_refl)).
  now rewrite (IH (fun y Hy => H y (or_intror Hy))).
Qed.

(** X6. When no two rounds share an id, the join with the rounds never
    multiplies submissions: [submissions_with_rounds] has at most as many
    rows as there are submissions, and exactly as many when the round of
    every submission is in the rounds file. *)
Theorem enriched_submissions_do_not_multiply
    (h : Host) (c r s v vwv swr : DataFrame) :
  load_data h = (Some c, Some r, Some s, Some v, Some vwv, Some swr) ->
  (forall i, index_of "ID" (columns r) = Some i -> distinct_keys i (rows r)) ->
  (len swr <= len s)%nat /\
  ((forall i j sub,
      index_of "Round ID" (columns s) = Some i ->
      index_of "ID" (columns r) = Some j ->
      In sub (rows s) ->
      exists rnd, In rnd (rows r) /\ key_eqb (at_ i sub) (at_ j rnd) = true) ->
   len swr = len s).
Proof.
  intros L D. apply load_data_of_try in L.
  destruct (submissions_with_rounds_rows _ _ _ _ _ _ _ L)
    as (s_round & r_id & r_name & H1 & H2 & H3 & R).
  specialize (D r_id H2). unfold len. rewrite R.
  assert (Le : forall sub,
             (length
                (map (fun rnd => sub ++ voter_cells r_id r_name rnd)
                   (filter (fun rnd => key_eqb (at_ s_round sub) (at_ r_id rnd))
                      (rows r))) <= 1)%nat).
  { intros sub. rewrite length_map. now apply distinct_keys_match_once. }
  split.
  - apply flat_map_length_le. intros sub _. apply Le.
  - intros M. apply flat_map_length_eq. intros sub Hs.
    destruct (M s_round r_id sub H1 H2 Hs) as (rnd & Hr & K).
    specialize (Le sub). rewrite length_map in *.
    assert (Hin : In rnd (filter (fun rnd => key_eqb (at_ s_round sub)
                                               (at_ r_id rnd)) (rows r)))
      by (apply filter_In; auto).
    destruct (filter _ (rows r)) as [|x [|y l]]; simpl in *;
      [contradiction|reflexivity|lia].
Qed.

(** X7. When no two rows of [submissions_with_rounds] carry the same track
    and no two competitors share an id, the joins never multiply votes: the
    enriched votes have at most as many rows as there are votes. *)
Theorem enriched_votes_do_not_multiply
    (h : Host) (c r s v vwv swr : DataFrame) :
  load_data h = (Some c, Some r, Some s, Some v, Some vwv, Some swr) ->
  (forall i, index_of "Spotify URI" (columns swr) = Some i ->
             distinct_keys i (rows swr)) ->
  (forall i, index_of "ID" (columns c) = Some i -> distinct_keys i (rows c)) ->
  (len vwv <= len v)%nat.
Proof.
  intros L Ds Dc. apply load_data_of_try in L.
  destruct (votes_with_voters_rows _ _ _ _ _ _ _ L)
    as (v_uri & v_voter & s_uri & title & artist & round & name & comment &
        c_id & c_name & H1 & H2 & H3 & H4 & H5 & H6 & H7 & H8 & H9 & H10 & R).
  specialize (Ds s_uri H3). specialize (Dc c_id H9).
  unfold len. rewrite R. apply flat_map_length_le. intros vote _.
  unfold enriched.
  etransitivity; [apply flat_map_length_le|now apply distinct_keys_match_once].
  intros sub _. rewrite length_map. now apply distinct_keys_match_once.
Qed.

Ltac at_known_column :=
  let i := fresh "i" in
  let Hi := fresh "Hi" in
  intros i Hi; vm_compute in Hi; injection Hi as <-.

Lemma enriched_submissions_do_not_multiply_witness :
  exists c r s v vwv swr,
    load_data league = (Some c, Some r, Some s, Some v, Some vwv, Some swr) /\
    (forall i, index_of "ID" (columns r) = Some i ->
               distinct_keys i (rows r)) /\
    (len swr <= len s)%nat /\
    ((forall i j sub,
        index_of "Round ID" (columns s) = Some i ->
        index_of "ID" (columns r) = Some j ->
        In sub (rows s) ->
        exists rnd, In rnd (rows r) /\ key_eqb (at_ i sub) (at_ j rnd) = true) ->
     len swr = len s).
Proof.
  do 6 eexists. split; [vm_compute; reflexivity|].
  split; [at_known_column; repeat constructor|].
  eapply (enriched_submissions_do_not_multiply league).
  - vm_compute. reflexivity.
  - at_known_column. repeat constructor.
Defined.

Lemma enriched_votes_do_not_multiply_witness :
  exists c r s v vwv swr,
    load_data league = (Some c, Some r, Some s, Some v, Some vwv, Some swr) /\
    (forall i, index_of "Spotify URI" (columns swr) = Some i ->
               distinct_keys i (rows swr)) /\
    (forall i, index_of "ID" (columns c) = Some i ->
               distinct_keys i (rows c)) /\
    (len vwv <= len v)%nat.
Proof.
  do 6 eexists. split; [vm_compute; reflexivity|].
  split; [at_known_column; repeat constructor|].
  split; [at_known_column; repeat constructor|].
  eapply (enriched_votes_do_not_multiply league).
  - vm_compute. reflexivity.
  - at_known_column. repeat constructor.
  - at_known_column. repeat constructor.
Defined.

(** ** The comment rate *)

Lemma zip_with_andb_map {A : Type} (f g : A -> bool) (l : list A) :
  zip_with andb (map f l) (map g l) = map (fun x => f x && g x) l.
Proof.
  induction l as [|x xs IH]; simpl; [reflexivity|]. now rewrite IH.
Qed.

Lemma with_comment_found (df : DataFrame) (i : nat) :
  index_of "Comment" (columns df) = Some i ->
  with_comment df
  = Ok (mkDF (columns df)
          (filter (fun r => has_comment (at_ i r)) (rows df))).
Proof.
  intros H. unfold with_comment, getitem, col_loc. rewrite H. simpl.
  rewrite zip_with_andb_map, map_map.
  now rewrite (boolean_index_map (fun r => has_comment (at_ i r))).
Qed.





(** ** The table of competitors *)

(** Everything one pass of the loop over the competitors did. *)
Lemma competitor_stat_inv
    (competitors submissions votes : DataFrame) (competitor : row) (st : stats) :
  competitor_stat competitors submissions votes competitor = Ok st ->
  exists id i_sub received points cast commented,
    field (columns competitors) competitor "ID" = Ok id /\
    field (columns competitors) competitor "Name" = Ok (Name st) /\
    index_of "Submitter ID" (columns submissions) = Some i_sub /\
    Submissions st
      = count (length (filter (fun r => py_eq (at_ i_sub r) id)
                              (rows submissions))) /\
    votes_received votes submissions id = Ok received /\
    getitem received "Points Assigned" = Ok points /\
    series_sum points = Ok (Points_Received st) /\
    (if Nat.ltb 0 (len received) then series_mean points else Ok (Num 0))
      = Ok (Avg_Points_Received st) /\
    votes_cast votes id = Ok cast /\
    Votes_Cast st = count (len cast) /\
    with_comment
      (mkDF (columns submissions)
         (filter (fun r => py_eq (at_ i_sub r) id) (rows submissions)))
      = Ok commented /\
    Comments st = count (len commented).
Proof.
  unfold competitor_stat. intros H.
  unbind H as sids Hsids H. unbind H as id Hid H.
  unbind H as received Hrec H. unbind H as points Hpts H.
  unbind H as tot Htot H. unbind H as avr Havr H.
  unbind H as cast Hcast H. unbind H as avg Havg H.
  unbind H as cm Hcm H. unbind H as name Hname H.
  injection H as <-. simpl.
  unfold getitem in Hsids. unbind Hsids as i Hi Hs. injection Hs as <-.
  apply col_loc_ok in Hi.
  rewrite map_map, (boolean_index_map (fun r => py_eq (at_ i r) id)) in Hcm.
  unfold len at 1. simpl.
  rewrite map_map, (boolean_index_map (fun r => py_eq (at_ i r) id)).
  exists id, i, received, points, cast, cm. auto 15.
Qed.

Lemma with_comment_le (df out : DataFrame) :
  with_comment df = Ok out -> (len out <= len df)%nat.
Proof.
  unfold with_comment, getitem. intros H.
  unbind H as a Ha H. unbind H as b Hb H. injection H as <-.
  unbind Ha as i Hi Ha. injection Ha as <-.
  unbind Hb as j Hj Hb. injection Hb as <-.
  rewrite Hi in Hj. injection Hj as <-.
  unfold len. simpl. rewrite zip_with_andb_map, map_map.
  rewrite (boolean_index_map
             (fun r => notna (at_ i r) && py_ne (at_ i r) (Str ""))).
  apply filter_length_le.
Qed.

(** X9. The table of competitors has one entry per row of the competitors
    file, in file order.  The entry carries that row's name; its submission
    count is the number of submissions whose ['Submitter ID'] equals the
    row's id; and its comment count never exceeds its submission count. *)
Theorem competitor_table_follows_the_file
    (competitors submissions votes : DataFrame) (all : list stats) :
  competitor_stats competitors submissions votes = Ok all ->
  length all = len competitors /\
  Forall2
    (fun competitor st =>
       exists id i_sub n k,
         field (columns competitors) competitor "ID" = Ok id /\
         field (columns competitors) competitor "Name" = Ok (Name st) /\
         index_of "Submitter ID" (columns submissions) = Some i_sub /\
         n = length (filter (fun r => py_eq (at_ i_sub r) id)
                            (rows submissions)) /\
         Submissions st = count n /\
         Comments st = count k /\ (k <= n)%nat)
    (rows competitors) all.
Proof.
  intros H. split; [exact (mapM_length _ _ _ H)|].
  apply mapM_Forall2 in H. eapply Forall2_impl; [|exact H]. clear H all.
  intros competitor st H.
  destruct (competitor_stat_inv _ _ _ _ _ H)
    as (id & i & received & points & cast & cm & Hid & Hname & Hi & Hsub &
        _ & _ & _ & _ & _ & _ & Hcm & Hc).
  exists id, i, (length (filter (fun r => py_eq (at_ i r) id)
                                (rows submissions))), (len cm).
  do 6 (split; [assumption || reflexivity|]).
  apply with_comment_le in Hcm. exact Hcm.
Qed.

Lemma competitor_table_follows_the_file_witness :
  exists all,
    competitor_stats league_competitors league_submissions league_votes
      = Ok all /\
    length all = len league_competitors /\
    Forall2
      (fun competitor st =>
         exists id i_sub n k,
           field (columns league_competitors) competitor "ID" = Ok id /\
           field (columns league_competitors) competitor "Name"
             = Ok (Name st) /\
           index_of "Submitter ID" (columns league_submissions) = Some i_sub /\
           n = length (filter (fun r => py_eq (at_ i_sub r) id)
                              (rows league_submissions)) /\
           Submissions st = count n /\
           Comments st = count k /\ (k <= n)%nat)
      (rows league_competitors) all.
Proof.
  eexists. split; [vm_compute; reflexivity|].
  apply (competitor_table_follows_the_file league_competitors
           league_submissions league_votes).
  vm_compute. reflexivity.
Defined.

(** ** Totals and averages *)




(** ** When the rankings can be drawn *)

Lemma mapM_to_num_numbers (i : nat) (l : list row) :
  Forall (fun r => exists q, at_ i r = Num q) l ->
  exists ks, mapM to_num (map (at_ i) l) = Ok ks.
Proof.
  induction 1 as [|r rs [q Hq] _ [ks IH]]; simpl; [eauto|].
  rewrite Hq, IH. simpl. eauto.
Qed.

Lemma nlargest_of_numbers (n i : nat) (col : string) (df : DataFrame) :
  index_of col (columns df) = Some i ->
  Forall (fun r => exists q, at_ i r = Num q) (rows df) ->
  exists out, nlargest n col df = Ok out /\ len out = Nat.min n (len df).
Proof.
  intros Hi F. unfold nlargest, col_loc. rewrite Hi.
  destruct (mapM_to_num_numbers i (rows df) F) as [ks Hks].
  cbv [bind]. rewrite Hks. eexists. split; [reflexivity|].
  unfold len. simpl. rewrite length_firstn. f_equal.
  rewrite length_app.
  rewrite (Permutation_length (by_key_desc_perm (qkey i) _)).
  rewrite filter_all, filter_none.
  - simpl. lia.
  - eapply Forall_impl; [|exact F]. intros r [q ->]. reflexivity.
  - eapply Forall_impl; [|exact F]. intros r [q ->]. reflexivity.
Qed.

(** X11. The two rankings of the competitor tab can be drawn exactly when
    there is at least one competitor.  Each then lists the competitors with
    the largest values, ten of them or all if there are fewer.  With an
    empty competitors file the table of competitors has no columns at all
    and asking for the ranking raises [KeyError]. *)
Theorem rankings_need_a_competitor
    (competitors submissions votes : DataFrame) (all : list stats) :
  competitor_stats competitors submissions votes = Ok all ->
  (rows competitors <> [] ->
   exists top_s top_p,
     top_submitters all = Ok top_s /\
     top_point_receivers all = Ok top_p /\
     len top_s = Nat.min 10 (len competitors) /\
     len top_p = Nat.min 10 (len competitors)) /\
  (rows competitors = [] ->
   top_submitters all = Raise (KeyError "Submissions") /\
   top_point_receivers all = Raise (KeyError "Points Received")).
Proof.
  intros H. pose proof (mapM_length _ _ _ H) as Hlen.
  apply mapM_Forall2 in H. split.
  - intros Hne.
    assert (Numbers :
              Forall (fun st => (exists q, Submissions st = Num q) /\
                                (exists q, Points_Received st = Num q)) all).
    { clear Hlen Hne. induction H as [|competitor st cs sts Hst _ IH];
        constructor; [|exact IH].
      destruct (competitor_stat_inv _ _ _ _ _ Hst)
        as (id & i & received & points & cast & cm & _ & _ & _ & Hsub &
            _ & _ & Hsum & _).
      split; [rewrite Hsub; unfold count; eauto|].
      unfold series_sum in Hsum. unbind Hsum as ns Hns Hsum.
      injection Hsum as <-. eauto. }
    assert (Shape : comp_df all = mkDF stats_columns (map stats_row all)).
    { destruct all; [|reflexivity].
      simpl in Hlen. unfold len in Hlen. destruct (rows competitors);
        [congruence|discriminate]. }
    unfold top_submitters, top_point_receivers. rewrite Shape.
    destruct (nlargest_of_numbers 10 1 "Submissions"
                (mkDF stats_columns (map stats_row all)) eq_refl)
      as (top_s & Hs & Ls).
    { simpl. rewrite Forall_map. eapply Forall_impl; [|exact Numbers].
      intros st [[q Hq] _]. exists q. exact Hq. }
    destruct (nlargest_of_numbers 10 2 "Points Received"
                (mkDF stats_columns (map stats_row all)) eq_refl)
      as (top_p & Hp & Lp).
    { simpl. rewrite Forall_map. eapply Forall_impl; [|exact Numbers].
      intros st [_ [q Hq]]. exists q. exact Hq. }
    exists top_s, top_p. unfold len in *. simpl in Ls, Lp.
    rewrite length_map, Hlen in Ls, Lp. auto.
  - intros He. rewrite He in H. inversion H; subst. split; reflexivity.
Qed.

Lemma rankings_need_a_competitor_witness :
  exists all,
    competitor_stats league_competitors league_submissions league_votes
      = Ok all /\
    (rows league_competitors <> [] ->
     exists top_s top_p,
       top_submitters all = Ok top_s /\
       top_point_receivers all = Ok top_p /\
       len top_s = Nat.min 10 (len league_competitors) /\
       len top_p = Nat.min 10 (len league_competitors)) /\
    (rows league_competitors = [] ->
     top_submitters all = Raise (KeyError "Submissions") /\
     top_point_receivers all = Raise (KeyError "Points Received")).
Proof.
  eexists. split; [vm_compute; reflexivity|].
  apply (rankings_need_a_competitor league_competitors league_submissions
           league_votes).
  vm_compute. reflexivity.
Defined.

(** ** The table of rounds *)

Lemma where_mask_filter (df : DataFrame) (c : string) (v : cell) (s : list cell)
    (i : nat) :
  getitem df c = Ok s -> index_of c (columns df) = Some i ->
  boolean_index (rows df) (map (fun x => py_eq x v) s)
  = filter (fun r => py_eq (at_ i r) v) (rows df).
Proof.
  unfold getitem, col_loc. intros H Hi. rewrite Hi in H. injection H as <-.
  rewrite map_map. apply (boolean_index_map (fun r => py_eq (at_ i r) v)).
Qed.

Lemma getitem_index (df : DataFrame) (c : string) (s : list cell) :
  getitem df c = Ok s -> exists i, index_of c (columns df) = Some i.
Proof.
  unfold getitem. intros H. unbind H as i Hi H. eauto using col_loc_ok.
Qed.

Lemma series_mean_empty : series_mean [] = Ok NaN.
Proof. reflexivity. Qed.

(** Everything one pass of the loop over the rounds did. *)
Lemma round_stat_inv (rounds submissions votes : DataFrame) (round_data : row)
    (e : RoundTable.entry) :
  round_stat rounds submissions votes round_data = Ok e ->
  exists id i_s i_v points commented,
    field (columns rounds) round_data "ID" = Ok id /\
    field (columns rounds) round_data "Name" = Ok (RoundTable.Round e) /\
    index_of "Round ID" (columns submissions) = Some i_s /\
    index_of "Round ID" (columns votes) = Some i_v /\
    RoundTable.Submissions e
      = length (filter (fun r => py_eq (at_ i_s r) id) (rows submissions)) /\
    RoundTable.Total_Votes e
      = length (filter (fun r => py_eq (at_ i_v r) id) (rows votes)) /\
    getitem (mkDF (columns votes)
               (filter (fun r => py_eq (at_ i_v r) id) (rows votes)))
            "Points Assigned" = Ok points /\
    series_mean points = Ok (RoundTable.Avg_Points e) /\
    with_comment
      (mkDF (columns submissions)
         (filter (fun r => py_eq (at_ i_s r) id) (rows submissions)))
      = Ok commented /\
    RoundTable.Comments e = len commented.
Proof.
  unfold round_stat. intros H.
  unbind H as srs Hsrs H. unbind H as id Hid H. unbind H as vrs Hvrs H.
  unbind H as name Hname H. unbind H as points Hpts H.
  unbind H as avg Havg H. unbind H as cm Hcm H. injection H as <-. simpl.
  destruct (getitem_index _ _ _ Hsrs) as [i_s His].
  destruct (getitem_index _ _ _ Hvrs) as [i_v Hiv].
  rewrite (where_mask_filter _ _ _ _ _ Hsrs His) in *.
  rewrite (where_mask_filter _ _ _ _ _ Hvrs Hiv) in *.
  exists id, i_s, i_v, points, cm. unfold len. simpl. auto 12.
Qed.

(** X12. The table of rounds has one entry per row of the rounds file, in
    file order, carrying that row's name.  Its counts are the numbers of
    submissions and of votes whose ['Round ID'] equals the row's id; the
    comment count never exceeds the submission count; and the average of a
    round without votes is NaN, not 0. *)
Theorem round_table_follows_the_file
    (rounds submissions votes : DataFrame) (all : list RoundTable.entry) :
  round_stats rounds submissions votes = Ok all ->
  length all = len rounds /\
  Forall2
    (fun round_data e =>
       exists id i_s i_v,
         field (columns rounds) round_data "ID" = Ok id /\
         field (columns rounds) round_data "Name" = Ok (RoundTable.Round e) /\
         index_of "Round ID" (columns submissions) = Some i_s /\
         index_of "Round ID" (columns votes) = Some i_v /\
         RoundTable.Submissions e
           = length (filter (fun r => py_eq (at_ i_s r) id)
                            (rows submissions)) /\
         RoundTable.Total_Votes e
           = length (filter (fun r => py_eq (at_ i_v r) id) (rows votes)) /\
         (RoundTable.Comments e <= RoundTable.Submissions e)%nat /\
         (RoundTable.Total_Votes e = 0%nat -> RoundTable.Avg_Points e = NaN))
    (rows rounds) all.
Proof.
  intros H. split; [exact (mapM_length _ _ _ H)|].
  apply mapM_Forall2 in H. eapply Forall2_impl; [|exact H]. clear H all.
  intros round_data e H.
  destruct (round_stat_inv _ _ _ _ _ H)
    as (id & i_s & i_v & points & cm & Hid & Hname & His & Hiv & Hs & Hv &
        Hpts & Havg & Hcm & Hc).
  exists id, i_s, i_v. do 6 (split; [assumption|]). split.
  - rewrite Hc, Hs. apply with_comment_le in Hcm. exact Hcm.
  - intros Z. rewrite Hv in Z. apply length_zero_iff_nil in Z.
    unfold getitem in Hpts. rewrite Z in Hpts. simpl in Hpts.
    unbind Hpts as j Hj Hp. injection Hp as <-.
    rewrite series_mean_empty in Havg. now injection Havg as <-.
Qed.

Lemma round_table_follows_the_file_witness :
  exists all,
    round_stats quiet_rounds league_submissions league_votes = Ok all /\
    length all = len quiet_rounds /\
    Forall2
      (fun round_data e =>
         exists id i_s i_v,
           field (columns quiet_rounds) round_data "ID" = Ok id /\
           field (columns quiet_rounds) round_data "Name"
             = Ok (RoundTable.Round e) /\
           index_of "Round ID" (columns league_submissions) = Some i_s /\
           index_of "Round ID" (columns league_votes) = Some i_v /\
           RoundTable.Submissions e
             = length (filter (fun r => py_eq (at_ i_s r) id)
                              (rows league_submissions)) /\
           RoundTable.Total_Votes e
             = length (filter (fun r => py_eq (at_ i_v r) id)
                              (rows league_votes)) /\
           (RoundTable.Comments e <= RoundTable.Submissions e)%nat /\
           (RoundTable.Total_Votes e = 0%nat ->
            RoundTable.Avg_Points e = NaN))
      (rows quiet_rounds) all.
Proof.
  eexists. split; [vm_compute; reflexivity|].
  apply (round_table_follows_the_file quiet_rounds league_submissions
           league_votes).
  vm_compute. reflexivity.
Defined.

(** ** Every vote belongs to one round *)

Lemma py_eq_key_eqb (a b : cell) : py_eq a b = true -> key_eqb a b = true.
Proof. destruct a, b; simpl; auto. Qed.

Lemma distinct_keys_equal_once (i : nat) (k : cell) (l : list row) :
  distinct_keys i l ->
  (length (filter (fun r => py_eq k (at_ i r)) l) <= 1)%nat.
Proof.
  induction 1 as [|a l Ha Hl IH]; simpl; [lia|].
  destruct (py_eq k (at_ i a)) eqn:Ka; [|exact IH].
  rewrite filter_none; [simpl; lia|].
  rewrite Forall_forall in *. intros b Hb.
  destruct (py_eq k (at_ i b)) eqn:Kb; [|reflexivity].
  rewrite <- (Ha b Hb). symmetry.
  apply key_eqb_common with (k := k); now apply py_eq_key_eqb.
Qed.

Lemma list_sum_indicator {B : Type} (f : B -> bool) (g : B -> nat)
    (l : list B) :
  list_sum (map (fun b => (if f b then 1 else 0) + g b)%nat l)
  = (length (filter f l) + list_sum (map g l))%nat.
Proof.
  induction l as [|b bs IH]; simpl; [reflexivity|].
  rewrite IH. destruct (f b); simpl; lia.
Qed.

(** Counting matches row by row or column by column gives the same number. *)
Lemma count_matches_swap {A B : Type} (p : A -> B -> bool)
    (la : list A) (lb : list B) :
  list_sum (map (fun a => length (filter (p a) lb)) la)
  = list_sum (map (fun b => length (filter (fun a => p a b) la)) lb).
Proof.
  induction la as [|a la IH]; simpl.
  - induction lb as [|b lb IHb]; simpl; [reflexivity|exact IHb].
  - rewrite IH, <- list_sum_indicator. f_equal. apply map_ext. intros b.
    now destruct (p a b).
Qed.

Lemma list_sum_le_length {A : Type} (f : A -> nat) (l : list A) :
  (forall x, In x l -> (f x <= 1)%nat) ->
  (list_sum (map f l) <= length l)%nat.
Proof.
  induction l as [|x xs IH]; simpl; intros H; [lia|].
  specialize (H x (or_introl eq_refl)) as Hx.
  specialize (IH (fun y Hy => H y (or_intror Hy))). lia.
Qed.

Lemma list_sum_eq_length {A : Type} (f : A -> nat) (l : list A) :
  (forall x, In x l -> f x = 1%nat) -> list_sum (map f l) = length l.
Proof.
  induction l as [|x xs IH]; simpl; intros H; [reflexivity|].
  rewrite (H x (or_introl eq_refl)).
  now rewrite (IH (fun y Hy => H y (or_intror Hy))).
Qed.

(** X13. When no two rounds share an id, no vote is counted twice in the
    table of rounds: the vote counts of the rounds add up to at most the
    number of votes, and to exactly that number when the ['Round ID'] of
    every vote is the id of a round. *)
Theorem round_vote_counts_add_up
    (rounds submissions votes : DataFrame) (all : list RoundTable.entry)
    (i_v i_id : nat) :
  round_stats rounds submissions votes = Ok all ->
  index_of "Round ID" (columns votes) = Some i_v ->
  index_of "ID" (columns rounds) = Some i_id ->
  distinct_keys i_id (rows rounds) ->
  (list_sum (map RoundTable.Total_Votes all) <= len votes)%nat /\
  ((forall vote, In vote (rows votes) ->
                 exists round_data,
                   In round_data (rows rounds) /\
                   py_eq (at_ i_v vote) (at_ i_id round_data) = true) ->
   list_sum (map RoundTable.Total_Votes all) = len votes).
Proof.
  intros H Hv Hi D. apply mapM_Forall2 in H.
  assert (S : list_sum (map RoundTable.Total_Votes all)
              = list_sum
                  (map (fun vote =>
                          length (filter (fun rd => py_eq (at_ i_v vote)
                                                      (at_ i_id rd))
                                         (rows rounds)))
                       (rows votes))).
  { rewrite <- (count_matches_swap
                  (fun rd vote => py_eq (at_ i_v vote) (at_ i_id rd))).
    clear D. induction H as [|rd e rds es He _ IH]; simpl; [reflexivity|].
    rewrite IH. f_equal.
    destruct (round_stat_inv _ _ _ _ _ He)
      as (id & i_s & i_v' & points & cm & Hid & _ & _ & Hiv' & _ & Ht & _).
    rewrite Hv in Hiv'. injection Hiv' as <-.
    unfold field, col_loc in Hid. rewrite Hi in Hid. injection Hid as <-.
    exact Ht. }
  rewrite S. unfold len. split.
  - apply list_sum_le_length. intros vote _.
    now apply distinct_keys_equal_once.
  - intros M. apply list_sum_eq_length. intros vote Hin.
    destruct (M vote Hin) as (rd & Hr & K).
    pose proof (distinct_keys_equal_once i_id (at_ i_v vote) _ D) as Le.
    assert (Hf : In rd (filter (fun rd => py_eq (at_ i_v vote) (at_ i_id rd))
                               (rows rounds)))
      by (apply filter_In; auto).
    destruct (filter _ (rows rounds)) as [|x [|y l]]; simpl in *;
      [contradiction|reflexivity|lia].
Qed.

Lemma round_vote_counts_add_up_witness :
  exists all,
    round_stats quiet_rounds league_submissions league_votes = Ok all /\
    index_of "Round ID" (columns league_votes) = Some 0%nat /\
    index_of "ID" (columns quiet_rounds) = Some 0%nat /\
    distinct_keys 0 (rows quiet_rounds) /\
    (list_sum (map RoundTable.Total_Votes all) <= len league_votes)%nat /\
    ((forall vote, In vote (rows league_votes) ->
                   exists round_data,
                     In round_data (rows quiet_rounds) /\
                     py_eq (at_ 0 vote) (at_ 0 round_data) = true) ->
     list_sum (map RoundTable.Total_Votes all) = len league_votes).
Proof.
  eexists. split; [vm_compute; reflexivity|].
  split; [reflexivity|]. split; [reflexivity|].
  split; [repeat constructor|].
  apply (round_vote_counts_add_up quiet_rounds league_submissions
           league_votes _ 0 0).
  - vm_compute. reflexivity.
  - reflexivity.
  - reflexivity.
  - repeat constructor.
Defined.

(** ** One round, one competitor: the same numbers as in the tables *)

(** X14. The four metrics shown for a selected round are the numbers of that
    round's entry in the table of rounds: when the name selected resolves to
    the id of a row of the rounds file, the metrics are the submissions,
    votes, average points and comments of the entry computed for that
    row. *)
Theorem round_metrics_match_the_table
    (rounds submissions votes : DataFrame) (round_data : row)
    (e : RoundTable.entry) (selected_round id : cell) :
  round_stat rounds submissions votes round_data = Ok e ->
  field (columns rounds) round_data "ID" = Ok id ->
  lookup_id rounds selected_round = Ok id ->
  round_metrics rounds submissions votes selected_round
  = Ok (RoundTable.Submissions e, RoundTable.Total_Votes e,
        RoundTable.Avg_Points e, RoundTable.Comments e).
Proof.
  intros H Hid L.
  destruct (round_stat_inv _ _ _ _ _ H)
    as (id' & i_s & i_v & points & cm & Hid' & _ & His & Hiv & Hs & Hv &
        Hpts & Havg & Hcm & Hc).
  rewrite Hid in Hid'. injection Hid' as <-.
  unfold round_metrics. rewrite L. cbv [bind].
  rewrite (where_eq_found _ _ _ _ His), (where_eq_found _ _ _ _ Hiv).
  rewrite Hpts, Havg, Hcm. unfold len. simpl.
  now rewrite Hs, Hv, Hc.
Qed.

Lemma round_metrics_match_the_table_witness :
  exists e,
    round_stat quiet_rounds league_submissions league_votes
      [Str "R1"; Str "Round 1"; Str "2024-01-01T09:00:00Z"] = Ok e /\
    field (columns quiet_rounds)
      [Str "R1"; Str "Round 1"; Str "2024-01-01T09:00:00Z"] "ID"
      = Ok (Str "R1") /\
    lookup_id quiet_rounds (Str "Round 1") = Ok (Str "R1") /\
    round_metrics quiet_rounds league_submissions league_votes (Str "Round 1")
    = Ok (RoundTable.Submissions e, RoundTable.Total_Votes e,
          RoundTable.Avg_Points e, RoundTable.Comments e).
Proof.
  eexists. split; [vm_compute; reflexivity|].
  split; [reflexivity|]. split; [reflexivity|].
  apply (round_metrics_match_the_table quiet_rounds league_submissions
           league_votes [Str "R1"; Str "Round 1"; Str "2024-01-01T09:00:00Z"]
           _ (Str "Round 1") (Str "R1")).
  - vm_compute. reflexivity.
  - reflexivity.
  - reflexivity.
Defined.

(** X15. The four metrics shown for a selected competitor are the numbers of
    that competitor's entry in the table of competitors: when the name
    selected resolves to the id of a row of the competitors file, the
    metrics are the submissions, points received, votes cast and comments of
    the entry computed for that row. *)
Theorem competitor_metrics_match_the_table
    (competitors submissions votes : DataFrame) (competitor : row)
    (st : stats) (selected_competitor id : cell) :
  competitor_stat competitors submissions votes competitor = Ok st ->
  field (columns competitors) competitor "ID" = Ok id ->
  lookup_id competitors selected_competitor = Ok id ->
  competitor_metrics competitors submissions votes selected_competitor
  = Ok (Submissions st, Points_Received st, Votes_Cast st, Comments st).
Proof.
  intros H Hid L.
  destruct (competitor_stat_inv _ _ _ _ _ H)
    as (id' & i & received & points & cast & cm & Hid' & _ & Hi & Hsub &
        Hrec & Hpts & Hsum & _ & Hcast & Hvc & Hcm & Hc).
  rewrite Hid in Hid'. injection Hid' as <-.
  unfold competitor_metrics. rewrite L. cbv [bind].
  rewrite (where_eq_found _ _ _ _ Hi), Hrec, Hcast, Hpts, Hsum, Hcm.
  unfold len at 1. simpl. now rewrite Hsub, Hvc, Hc.
Qed.

Lemma competitor_metrics_match_the_table_witness :
  exists st,
    competitor_stat league_competitors league_submissions league_votes
      [Str "cB"; Str "B"] = Ok st /\
    field (columns league_competitors) [Str "cB"; Str "B"] "ID"
      = Ok (Str "cB") /\
    lookup_id league_competitors (Str "B") = Ok (Str "cB") /\
    competitor_metrics league_competitors league_submissions league_votes
      (Str "B")
    = Ok (Submissions st, Points_Received st, Votes_Cast st, Comments st).
Proof.
  eexists. split; [vm_compute; reflexivity|].
  split; [reflexivity|]. split; [reflexivity|].
  apply (competitor_metrics_match_the_table league_competitors
           league_submissions league_votes [Str "cB"; Str "B"] _
           (Str "B") (Str "cB")).
  - vm_compute. reflexivity.
  - reflexivity.
  - reflexivity.
Defined.

(** ** Naming the commenters *)

(** X16. The list of commenter names has one entry per commented submission
    of the selection, in order.  The entry is the name of the first
    competitor, in file order, whose id equals the submission's
    ['Submitter ID']; when no competitor has that id (in particular when the
    id is missing) it is the text "Unknown (id)". *)
Theorem commenters_are_named_or_unknown
    (str : cell -> string) (competitors filtered_submissions : DataFrame)
    (names : list cell) (i_id : nat) :
  commenter_names str competitors filtered_submissions = Ok names ->
  index_of "ID" (columns competitors) = Some i_id ->
  exists commented,
    with_comment filtered_submissions = Ok commented /\
    length names = len commented /\
    Forall2
      (fun submission name =>
         exists id,
           field (columns filtered_submissions) submission "Submitter ID"
             = Ok id /\
           match filter (fun r => py_eq (at_ i_id r) id) (rows competitors) with
           | first :: _ => field (columns competitors) first "Name" = Ok name
           | [] => name = Str (String.append "Unknown ("
                                 (String.append (str id) ")"))
           end /\
           (id = NaN ->
            name = Str (String.append "Unknown ("
                          (String.append (str NaN) ")"))))
      (rows commented) names.
Proof.
  unfold commenter_names. intros H Hi.
  unbind H as commented Hc H.
  exists commented. split; [exact Hc|].
  split; [exact (mapM_length _ _ _ H)|].
  assert (C : columns commented = columns filtered_submissions).
  { unfold with_comment in Hc. unbind Hc as a Ha Hc. unbind Hc as b Hb Hc.
    now injection Hc as <-. }
  apply mapM_Forall2 in H. eapply Forall2_impl; [|exact H].
  intros submission name Hn. unfold commenter_name in Hn.
  unbind Hn as id Hid Hn. unbind Hn as found Hf Hn.
  rewrite (where_eq_found _ _ _ _ Hi) in Hf. injection Hf as <-.
  unfold len in Hn. simpl in Hn.
  exists id. rewrite <- C. split; [exact Hid|].
  destruct (filter (fun r => py_eq (at_ i_id r) id) (rows competitors))
    as [|first rest] eqn:F; simpl in Hn.
  - injection Hn as <-. split; [reflexivity|]. now intros ->.
  - split; [exact Hn|]. intros ->. exfalso.
    assert (Hin : In first (filter (fun r => py_eq (at_ i_id r) NaN)
                                   (rows competitors)))
      by (rewrite F; now left).
    apply filter_In in Hin. destruct Hin as [_ K].
    rewrite py_eq_NaN_r in K. discriminate.
Qed.

Lemma commenters_are_named_or_unknown_witness :
  commenter_names sample_str league_competitors guest_submissions
    = Ok [Str "A"; Str "Unknown (cZ)"] /\
  index_of "ID" (columns league_competitors) = Some 0%nat /\
  exists commented,
    with_comment guest_submissions = Ok commented /\
    length [Str "A"; Str "Unknown (cZ)"] = len commented /\
    Forall2
      (fun submission name =>
         exists id,
           field (columns guest_submissions) submission "Submitter ID"
             = Ok id /\
           match filter (fun r => py_eq (at_ 0 r) id)
                        (rows league_competitors) with
           | first :: _ =>
               field (columns league_competitors) first "Name" = Ok name
           | [] => name = Str (String.append "Unknown ("
                                 (String.append (sample_str id) ")"))
           end /\
           (id = NaN ->
            name = Str (String.append "Unknown ("
                          (String.append (sample_str NaN) ")"))))
      (rows commented) [Str "A"; Str "Unknown (cZ)"].
Proof.
  split; [vm_compute; reflexivity|]. split; [reflexivity|].
  apply (commenters_are_named_or_unknown sample_str league_competitors
           guest_submissions [Str "A"; Str "Unknown (cZ)"] 0).
  - vm_compute. reflexivity.
  - reflexivity.
Defined.

(** ** Group keys *)

Lemma py_eq_refl (x : cell) : notna x = true -> py_eq x x = true.
Proof.
  destruct x; simpl; try discriminate; intros _.
  - apply String.eqb_refl.
  - apply Qeq_bool_refl.
  - apply Z.eqb_refl.
Qed.


Lemma insert_sorted_perm (k : cell) (ks : list cell) :
  Permutation (insert_sorted k ks) (k :: ks).
Proof.
  induction ks as [|x xs IH]; simpl; [reflexivity|].
  destruct (cell_leb k x); [reflexivity|].
  rewrite IH. apply perm_swap.
Qed.

Lemma filter_length_perm {A : Type} (f : A -> bool) (l l' : list A) :
  Permutation l l' -> length (filter f l) = length (filter f l').
Proof.
  induction 1; simpl; try congruence.
  - destruct (f x); simpl; congruence.
  - destruct (f x), (f y); reflexivity.
Qed.

Lemma existsb_none_filter {A : Type} (f : A -> bool) (l : list A) :
  existsb f l = false -> filter f l = [].
Proof.
  induction l as [|x xs IH]; simpl; [reflexivity|].
  destruct (f x); simpl; [discriminate|exact IH].
Qed.

(** No value matches two group keys. *)
Lemma group_keys_once (x : cell) (s : list cell) :
  (length (filter (fun k => py_eq x k) (group_keys s)) <= 1)%nat.
Proof.
  induction s as [|y ys IH]; simpl; [lia|].
  destruct (notna y && negb (existsb (py_eq y) (group_keys ys))) eqn:E;
    [|exact IH].
  apply andb_prop in E. destruct E as [_ E]. apply negb_true_iff in E.
  rewrite (filter_length_perm _ _ _ (insert_sorted_perm y (group_keys ys))).
  simpl. destruct (py_eq x y) eqn:Exy; [|exact IH].
  rewrite filter_none; [simpl; lia|].
  rewrite Forall_forall. intros k Hk.
  destruct (py_eq x k) eqn:Exk; [|reflexivity].
  exfalso. apply existsb_none_filter in E.
  assert (Hin : In k (filter (py_eq y) (group_keys ys))).
  { apply filter_In. split; [exact Hk|].
    apply (py_eq_trans y x k); [now rewrite py_eq_sym|exact Exk]. }
  rewrite E in Hin. contradiction.
Qed.

Lemma group_keys_in (k : cell) (s : list cell) :
  In k (group_keys s) -> In k s /\ notna k = true.
Proof.
  induction s as [|y ys IH]; simpl; [contradiction|].
  destruct (notna y && negb (existsb (py_eq y) (group_keys ys))) eqn:E.
  - intros H. apply (Permutation_in _ (insert_sorted_perm _ _)) in H.
    apply andb_prop in E. destruct E as [Ny _].
    destruct H as [<-|H]; [auto|]. destruct (IH H). auto.
  - intros H. destruct (IH H). auto.
Qed.

Lemma group_keys_covers (x : cell) (s : list cell) :
  In x s -> notna x = true ->
  exists k, In k (group_keys s) /\ py_eq x k = true.
Proof.
  induction s as [|y ys IH]; simpl; [contradiction|].
  intros [->|Hin] Nx.
  - rewrite Nx. simpl.
    destruct (existsb (py_eq x) (group_keys ys)) eqn:E; simpl.
    + apply existsb_exists in E. destruct E as (k & Hk & K). eauto.
    + exists x. split; [|now apply py_eq_refl].
      apply (Permutation_in _ (Permutation_sym (insert_sorted_perm _ _))).
      now left.
  - destruct (IH Hin Nx) as (k & Hk & K). exists k. split; [|exact K].
    destruct (notna y && negb (existsb (py_eq y) (group_keys ys)));
      [|exact Hk].
    apply (Permutation_in _ (Permutation_sym (insert_sorted_perm _ _))).
    now right.
Qed.

Lemma cell_leb_total (a b : cell) :
  cell_leb a b = false -> cell_leb b a = true.
Proof.
  destruct a, b; simpl; try reflexivity; try discriminate.
  - intros H. destruct (String.leb_total s s0) as [T|T]; congruence.
  - intros H. apply Qle_bool_iff. apply Qlt_le_weak, Qnot_le_lt.
    intros L. apply Qle_bool_iff in L. congruence.
  - intros H. apply Z.leb_gt in H. apply Z.leb_le. lia.
Qed.

Lemma insert_sorted_sorted (k : cell) (ks : list cell) :
  Sorted (fun a b => cell_leb a b = true) ks ->
  Sorted (fun a b => cell_leb a b = true) (insert_sorted k ks).
Proof.
  induction 1 as [|x xs Hs IH Hx]; simpl; [repeat constructor|].
  destruct (cell_leb k x) eqn:E.
  - repeat constructor; assumption.
  - constructor; [exact IH|].
    destruct xs as [|y ys]; simpl.
    + constructor. now apply cell_leb_total.
    + destruct (cell_leb k y); constructor.
      * now apply cell_leb_total.
      * now inversion Hx.
Qed.

Lemma group_keys_sorted (s : list cell) :
  Sorted (fun a b => cell_leb a b = true) (group_keys s).
Proof.
  induction s as [|y ys IH]; simpl; [constructor|].
  destruct (notna y && negb (existsb (py_eq y) (group_keys ys)));
    [now apply insert_sorted_sorted|exact IH].
Qed.

Lemma list_sum_flags {A : Type} (f : A -> nat) (g : A -> bool) (l : list A) :
  (forall x, In x l -> f x = if g x then 1%nat else 0%nat) ->
  list_sum (map f l) = length (filter g l).
Proof.
  induction l as [|x xs IH]; simpl; intros H; [reflexivity|].
  rewrite (H x (or_introl eq_refl)), (IH (fun y Hy => H y (or_intror Hy))).
  now destruct (g x).
Qed.

(** Each value that is not missing falls in exactly one group. *)
Lemma group_keys_match (x : cell) (s : list cell) :
  In x s ->
  length (filter (fun k => py_eq x k) (group_keys s))
  = if notna x then 1%nat else 0%nat.
Proof.
  intros Hin. destruct (notna x) eqn:N.
  - pose proof (group_keys_once x s) as Le.
    destruct (group_keys_covers x s Hin N) as (k & Hk & K).
    assert (Hf : In k (filter (fun k => py_eq x k) (group_keys s)))
      by (apply filter_In; auto).
    destruct (filter _ (group_keys s)) as [|a [|b l]]; simpl in *;
      [contradiction|reflexivity|lia].
  - rewrite filter_none; [reflexivity|].
    rewrite Forall_forall. intros k _. destruct x; try discriminate.
    reflexivity.
Qed.

(** The sizes of the groups add up to the number of rows that have a key. *)
Lemma group_sizes_add_up (s : list cell) :
  list_sum (map (fun k => length (filter (fun x => py_eq x k) s))
                (group_keys s))
  = length (filter notna s).
Proof.
  rewrite (count_matches_swap (fun k x => py_eq x k)).
  apply list_sum_flags. intros x Hx. now apply group_keys_match.
Qed.

(** ** Grouped counts *)

Lemma Forall2_map_same {A B C : Type} (R : B -> C -> Prop) (f : A -> B)
    (g : A -> C) (l : list A) :
  (forall x, In x l -> R (f x) (g x)) -> Forall2 R (map f l) (map g l).
Proof.
  induction l as [|x xs IH]; simpl; intros H; constructor.
  - apply H. now left.
  - apply IH. intros y Hy. apply H. now right.
Qed.

Lemma Sorted_map_key (f : cell -> row) (l : list cell) :
  (forall k, at_ 0 (f k) = k) ->
  Sorted (fun a b => cell_leb a b = true) l ->
  Sorted (fun a b => cell_leb (at_ 0 a) (at_ 0 b) = true) (map f l).
Proof.
  intros Hf. induction 1 as [|x xs Hs IH Hx]; simpl; constructor; [exact IH|].
  destruct xs as [|y ys]; simpl; constructor.
  inversion Hx; subst. now rewrite !Hf.
Qed.

Lemma filter_column_length (i : nat) (f : cell -> bool) (l : list row) :
  length (filter f (map (at_ i) l)) = length (filter (fun r => f (at_ i r)) l).
Proof. now rewrite filter_map_swap, length_map. Qed.

(** What [groupby(key).size()] lists. *)
Lemma groupby_size_spec (df : DataFrame) (key name : string) (out : DataFrame) :
  groupby_size df key name = Ok out ->
  exists i ns,
    index_of key (columns df) = Some i /\
    columns out = [key; name] /\
    Forall2
      (fun g n =>
         exists k,
           g = [k; count n] /\
           n = length (filter (fun r => py_eq (at_ i r) k) (rows df)) /\
           (1 <= n)%nat)
      (rows out) ns /\
    (forall x,
       (length (filter (fun g => py_eq x (at_ 0 g)) (rows out)) <= 1)%nat) /\
    (forall r, In r (rows df) -> notna (at_ i r) = true ->
               exists g, In g (rows out) /\
                         py_eq (at_ i r) (at_ 0 g) = true) /\
    Sorted (fun a b => cell_leb (at_ 0 a) (at_ 0 b) = true) (rows out) /\
    list_sum ns = length (filter (fun r => notna (at_ i r)) (rows df)).
Proof.
  unfold groupby_size. intros H. unbind H as keys Hk H.
  destruct (String.eqb key name); [discriminate|]. injection H as <-.
  unfold getitem in Hk. unbind Hk as i Hi Hk. injection Hk as <-.
  apply col_loc_ok in Hi.
  set (s := map (at_ i) (rows df)).
  exists i, (map (fun k => length (filter (fun r => py_eq (at_ i r) k)
                                          (rows df))) (group_keys s)).
  split; [exact Hi|]. split; [reflexivity|]. simpl. split.
  { apply Forall2_map_same. intros k Hk. exists k.
    unfold s. rewrite (filter_column_length i (fun x => py_eq x k)).
    split; [reflexivity|]. split; [reflexivity|].
    apply group_keys_in in Hk. destruct Hk as [Hin N].
    apply in_map_iff in Hin. destruct Hin as (r & Hr & Hin).
    assert (Hf : In r (filter (fun r => py_eq (at_ i r) k) (rows df))).
    { apply filter_In. split; [exact Hin|]. rewrite Hr.
      now apply py_eq_refl. }
    destruct (filter _ (rows df)); [contradiction|simpl; lia]. }
  split.
  { intros x. rewrite filter_map_swap, length_map. simpl.
    apply group_keys_once. }
  split.
  { intros r Hr N.
    destruct (group_keys_covers (at_ i r) s) as (k & Hk & K);
      [unfold s; now apply in_map|exact N|].
    eexists. split; [apply in_map; exact Hk|exact K]. }
  split.
  { apply Sorted_map_key; [reflexivity|apply group_keys_sorted]. }
  rewrite <- (filter_column_length i notna). fold s.
  rewrite <- (group_sizes_add_up s).
  f_equal. apply map_ext. intros k. unfold s.
  now rewrite (filter_column_length i (fun x => py_eq x k)).
Qed.

(** X17. The table of submissions per round lists every round name that
    occurs in [submissions_with_rounds] exactly once, in ascending order,
    with the number of rows carrying it, which is at least 1; rounds that
    share a name are counted together; and the counts add up to the number
    of rows that have a round name. *)
Theorem submissions_per_round_counts_each_name_once
    (submissions_with_rounds out : DataFrame) :
  submissions_per_round submissions_with_rounds = Ok out ->
  exists i ns,
    index_of "Name" (columns submissions_with_rounds) = Some i /\
    columns out = ["Name"; "Count"] /\
    Forall2
      (fun g n =>
         exists k,
           g = [k; count n] /\
           n = length (filter (fun r => py_eq (at_ i r) k)
                              (rows submissions_with_rounds)) /\
           (1 <= n)%nat)
      (rows out) ns /\
    (forall x,
       (length (filter (fun g => py_eq x (at_ 0 g)) (rows out)) <= 1)%nat) /\
    (forall r, In r (rows submissions_with_rounds) ->
               notna (at_ i r) = true ->
               exists g, In g (rows out) /\
                         py_eq (at_ i r) (at_ 0 g) = true) /\
    Sorted (fun a b => cell_leb (at_ 0 a) (at_ 0 b) = true) (rows out) /\
    list_sum ns
    = length (filter (fun r => notna (at_ i r))
                     (rows submissions_with_rounds)).
Proof.
  unfold submissions_per_round. apply groupby_size_spec.
Qed.

Lemma submissions_per_round_counts_each_name_once_witness :
  exists out,
    submissions_per_round (snd (views_of twin)) = Ok out /\
    rows out = [[Str "Finale"; Num 2]] /\
    exists i ns,
      index_of "Name" (columns (snd (views_of twin))) = Some i /\
      columns out = ["Name"; "Count"] /\
      Forall2
        (fun g n =>
           exists k,
             g = [k; count n] /\
             n = length (filter (fun r => py_eq (at_ i r) k)
                                (rows (snd (views_of twin)))) /\
             (1 <= n)%nat)
        (rows out) ns /\
      (forall x,
         (length (filter (fun g => py_eq x (at_ 0 g)) (rows out)) <= 1)%nat) /\
      (forall r, In r (rows (snd (views_of twin))) ->
                 notna (at_ i r) = true ->
                 exists g, In g (rows out) /\
                           py_eq (at_ i r) (at_ 0 g) = true) /\
      Sorted (fun a b => cell_leb (at_ 0 a) (at_ 0 b) = true) (rows out) /\
      list_sum ns
      = length (filter (fun r => notna (at_ i r))
                       (rows (snd (views_of twin)))).
Proof.
  eexists. split; [vm_compute; reflexivity|]. split; [reflexivity|].
  apply (submissions_per_round_counts_each_name_once (snd (views_of twin))).
  vm_compute. reflexivity.
Defined.

(** ** Left joins *)

Lemma left_join_rows_keeps (li ri width : nat) (rpart : row -> row)
    (lrows rrows : list row) (l : row) :
  In l lrows ->
  exists tail, In (l ++ tail) (left_join_rows li ri width rpart lrows rrows).
Proof.
  intros Hl. unfold left_join_rows.
  destruct (filter (fun r => key_eqb (at_ li l) (at_ ri r)) rrows)
    as [|m ms] eqn:F.
  - exists (repeat NaN width). apply in_flat_map. exists l.
    split; [exact Hl|]. rewrite F. now left.
  - exists (rpart m). apply in_flat_map. exists l.
    split; [exact Hl|]. rewrite F. now left.
Qed.

Lemma left_join_rows_origin (li ri width : nat) (rpart : row -> row)
    (lrows rrows : list row) (r : row) :
  In r (left_join_rows li ri width rpart lrows rrows) ->
  exists l,
    In l lrows /\
    ((r = l ++ repeat NaN width /\
      forall m, In m rrows -> key_eqb (at_ li l) (at_ ri m) = false)
     \/ exists m, In m rrows /\ key_eqb (at_ li l) (at_ ri m) = true /\
                  r = l ++ rpart m).
Proof.
  unfold left_join_rows. intros H. apply in_flat_map in H.
  destruct H as (l & Hl & H). exists l. split; [exact Hl|].
  destruct (filter (fun r => key_eqb (at_ li l) (at_ ri r)) rrows)
    as [|m ms] eqn:F.
  - left. destruct H as [<-|[]]. split; [reflexivity|].
    intros m Hm. destruct (key_eqb (at_ li l) (at_ ri m)) eqn:K;
      [|reflexivity].
    assert (Hin : In m (filter (fun r => key_eqb (at_ li l) (at_ ri r)) rrows))
      by (apply filter_In; auto).
    rewrite F in Hin. contradiction.
  - right. apply in_map_iff in H. destruct H as (m' & <- & Hm').
    rewrite <- F in Hm'. apply filter_In in Hm'. destruct Hm' as [Hin K].
    eauto.
Qed.

Lemma flat_map_length_ge {A B : Type} (f : A -> list B) (l : list A) :
  (forall x, In x l -> (1 <= length (f x))%nat) ->
  (length l <= length (flat_map f l))%nat.
Proof.
  induction l as [|x xs IH]; simpl; intros H; [lia|].
  rewrite length_app. specialize (H x (or_introl eq_refl)) as Hx.
  specialize (IH (fun y Hy => H y (or_intror Hy))). lia.
Qed.

Lemma left_join_rows_length_ge (li ri width : nat) (rpart : row -> row)
    (lrows rrows : list row) :
  (length lrows
   <= length (left_join_rows li ri width rpart lrows rrows))%nat.
Proof.
  apply flat_map_length_ge. intros l _.
  destruct (filter _ rrows); simpl; lia.
Qed.

Lemma left_join_rows_length_eq (li ri width : nat) (rpart : row -> row)
    (lrows rrows : list row) :
  (forall k, (length (filter (fun r => key_eqb k (at_ ri r)) rrows) <= 1)%nat) ->
  length (left_join_rows li ri width rpart lrows rrows) = length lrows.
Proof.
  intros H. apply flat_map_length_eq. intros l _.
  specialize (H (at_ li l)).
  destruct (filter _ rrows) as [|m [|m' ms]]; simpl in *; [reflexivity..|lia].
Qed.

(** X18. The voter table of a round keeps every voter: each group of
    [round_votes] by voter appears in the result, at the front of a row; a
    row of the result is a group followed by the id and name of a
    competitor with that id, or by two missing values when no competitor
    has it; so the result has at least as many rows as there are voters,
    and exactly as many when no two competitors share an id. *)
Theorem voter_participation_keeps_every_voter
    (round_votes competitors out : DataFrame) :
  voter_participation round_votes competitors = Ok out ->
  exists groups i n,
    groupby_size round_votes "Voter ID" "Votes_Cast" = Ok groups /\
    index_of "ID" (columns competitors) = Some i /\
    index_of "Name" (columns competitors) = Some n /\
    columns out = ["Voter ID"; "Votes_Cast"; "ID"; "Name"] /\
    (forall g, In g (rows groups) ->
               exists tail, In (g ++ tail) (rows out)) /\
    (forall r, In r (rows out) ->
       exists g,
         In g (rows groups) /\
         ((r = g ++ [NaN; NaN] /\
           forall c, In c (rows competitors) ->
                     key_eqb (at_ 0 g) (at_ i c) = false)
          \/ exists c, In c (rows competitors) /\
                       key_eqb (at_ 0 g) (at_ i c) = true /\
                       r = g ++ [at_ i c; at_ n c])) /\
    (len groups <= len out)%nat /\
    (distinct_keys i (rows competitors) -> len out = len groups).
Proof.
  unfold voter_participation. intros H.
  unbind H as groups Hg H. unbind H as names Hn H.
  pose proof Hg as Hcols. unfold groupby_size in Hcols.
  unbind Hcols as keys Hk Hcols.
  destruct (String.eqb "Voter ID" "Votes_Cast"); [discriminate|].
  assert (Gc : columns groups = ["Voter ID"; "Votes_Cast"])
    by (injection Hcols as <-; reflexivity).
  clear Hcols Hk keys.
  apply getitems_inv in Hn. destruct Hn as (locs & Hl & Nc & Nr).
  invert_Forall2.
  match goal with
  | Hi : index_of "ID" _ = Some ?a, Hj : index_of "Name" _ = Some ?b |- _ =>
      rename a into i; rename b into n
  end.
  unfold merge_left in H. rewrite Nc, Gc in H. simpl in H.
  injection H as <-. simpl.
  exists groups, i, n. repeat (split; [assumption || reflexivity|]).
  rewrite Nr. split.
  { intros g Hin. now apply left_join_rows_keeps. }
  split.
  { intros r Hr. apply left_join_rows_origin in Hr.
    destruct Hr as (g & Hin & [[-> Hno]|(m & Hm & K & ->)]);
      exists g; (split; [exact Hin|]).
    - left. split; [reflexivity|]. intros c Hc.
      apply (Hno (map (fun i0 => at_ i0 c) [i; n])).
      apply in_map_iff. eauto.
    - right. apply in_map_iff in Hm. destruct Hm as (c & <- & Hc).
      exists c. auto. }
  split.
  { unfold len. simpl. apply left_join_rows_length_ge. }
  intros D. unfold len. simpl. apply left_join_rows_length_eq.
  intros k. rewrite filter_map_swap, length_map. simpl.
  now apply distinct_keys_match_once.
Qed.

Lemma voter_participation_keeps_every_voter_witness :
  exists out,
    voter_participation stray_votes
      (mkDF competitor_columns [[Str "cA"; Str "A"]]) = Ok out /\
    rows out = [[Str "cA"; Num 1; Str "cA"; Str "A"];
                [Str "cC"; Num 3; NaN; NaN]] /\
    exists groups i n,
      groupby_size stray_votes "Voter ID" "Votes_Cast" = Ok groups /\
      index_of "ID" (columns (mkDF competitor_columns [[Str "cA"; Str "A"]])) = Some i /\
      index_of "Name" (columns (mkDF competitor_columns [[Str "cA"; Str "A"]])) = Some n /\
      columns out = ["Voter ID"; "Votes_Cast"; "ID"; "Name"] /\
      (forall g, In g (rows groups) ->
                 exists tail, In (g ++ tail) (rows out)) /\
      (forall r, In r (rows out) ->
         exists g,
           In g (rows groups) /\
           ((r = g ++ [NaN; NaN] /\
             forall c, In c (rows (mkDF competitor_columns [[Str "cA"; Str "A"]])) ->
                       key_eqb (at_ 0 g) (at_ i c) = false)
            \/ exists c, In c (rows (mkDF competitor_columns [[Str "cA"; Str "A"]])) /\
                         key_eqb (at_ 0 g) (at_ i c) = true /\
                         r = g ++ [at_ i c; at_ n c])) /\
      (len groups <= len out)%nat /\
      (distinct_keys i (rows (mkDF competitor_columns [[Str "cA"; Str "A"]])) -> len out = len groups).
Proof.
  eexists. split; [vm_compute; reflexivity|]. split; [reflexivity|].
  apply (voter_participation_keeps_every_voter stray_votes
           (mkDF competitor_columns [[Str "cA"; Str "A"]])).
  vm_compute. reflexivity.
Defined.

(** ** Grouped sums *)











(** ** Comments per round *)

(** Counting group by group is counting the members that fall in a group. *)
Lemma list_sum_by_group {A K : Type} (m : K -> A -> bool) (g : A -> bool)
    (keys : list K) (l : list A) :
  (forall x, In x l ->
     length (filter (fun k => m k x) keys) = if g x then 1%nat else 0%nat) ->
  list_sum (map (fun k => length (filter (m k) l)) keys)
  = length (filter g l).
Proof.
  intros H. rewrite (count_matches_swap m). now apply list_sum_flags.
Qed.


(** X20. The table of comments per round has the rounds of the table of
    submissions per round of the same frame, in the same order; the count
    of a round is the number of its rows whose comment is neither missing
    nor empty, at most its number of submissions; and the counts add up to
    no more than [total_comments], and to exactly that when every row has a
    round name. *)
Theorem comments_per_round_add_up (filtered_submissions out : DataFrame) :
  comments_per_round filtered_submissions = Ok out ->
  exists i c sizes commented ns,
    index_of "Name" (columns filtered_submissions) = Some i /\
    index_of "Comment" (columns filtered_submissions) = Some c /\
    columns out = ["Name"; "Comment_Count"] /\
    submissions_per_round filtered_submissions = Ok sizes /\
    with_comment filtered_submissions = Ok commented /\
    Forall2
      (fun g n =>
         exists k,
           g = [k; count n] /\
           n = length (filter (fun r => py_eq (at_ i r) k
                                        && has_comment (at_ c r))
                              (rows filtered_submissions)))
      (rows out) ns /\
    Forall2
      (fun g s =>
         exists k n m, g = [k; count n] /\ s = [k; count m] /\ (n <= m)%nat)
      (rows out) (rows sizes) /\
    (list_sum ns <= len commented)%nat /\
    (Forall (fun r => notna (at_ i r) = true) (rows filtered_submissions) ->
     list_sum ns = len commented).
Proof.
  unfold comments_per_round. intros H.
  unbind H as i Hi H. unbind H as c Hc H. injection H as <-.
  apply col_loc_ok in Hi. apply col_loc_ok in Hc.
  set (df := filtered_submissions) in *.
  set (s := map (at_ i) (rows df)).
  assert (E : forall k,
             length (filter (fun a => notna a && py_ne a (Str ""))
                            (map (at_ c)
                                 (filter (fun r => py_eq (at_ i r) k)
                                         (rows df))))
             = length (filter (fun r => py_eq (at_ i r) k
                                        && has_comment (at_ c r))
                              (rows df))).
  { intros k. rewrite filter_column_length, filter_both. reflexivity. }
  exists i, c,
    (mkDF ["Name"; "Count"]
       (map (fun k => [k; count (length (filter (fun x => py_eq x k) s))])
            (group_keys s))),
    (mkDF (columns df) (filter (fun r => has_comment (at_ c r)) (rows df))),
    (map (fun k => length (filter (fun r => py_eq (at_ i r) k
                                            && has_comment (at_ c r))
                                  (rows df)))
         (group_keys s)).
  split; [exact Hi|]. split; [exact Hc|]. split; [reflexivity|].
  split.
  { unfold submissions_per_round, groupby_size, getitem, col_loc.
    rewrite Hi. reflexivity. }
  split; [now apply with_comment_found|].
  cbn [rows]. fold s. split.
  { apply Forall2_map_same. intros k _. exists k. now rewrite E. }
  split.
  { apply Forall2_map_same. intros k _. eexists k, _, _.
    split; [reflexivity|]. split; [reflexivity|].
    rewrite E. unfold s. rewrite filter_column_length, <- filter_both.
    apply filter_length_le. }
  assert (S : list_sum
                (map (fun k => length (filter (fun r => py_eq (at_ i r) k
                                                        && has_comment (at_ c r))
                                              (rows df)))
                     (group_keys s))
              = length (filter (fun r => notna (at_ i r))
                               (filter (fun r => has_comment (at_ c r))
                                       (rows df)))).
  { rewrite <- (list_sum_by_group (fun k r => py_eq (at_ i r) k)
                                  (fun r => notna (at_ i r)) (group_keys s)).
    - f_equal. apply map_ext. intros k.
      now rewrite <- filter_both, filter_swap.
    - intros r Hr. apply filter_In in Hr. destruct Hr as [Hr _].
      apply (group_keys_match (at_ i r) s). unfold s. now apply in_map. }
  rewrite S. unfold len. cbn [rows]. split; [apply filter_length_le|].
  intros F. rewrite filter_all; [reflexivity|].
  rewrite Forall_forall in *. intros r Hr. apply F.
  apply filter_In in Hr. tauto.
Qed.

Lemma comments_per_round_add_up_witness :
  exists out,
    comments_per_round (snd (views_of league)) = Ok out /\
    rows out = [[Str "Round 1"; Num 1]] /\
    exists i c sizes commented ns,
      index_of "Name" (columns (snd (views_of league))) = Some i /\
      index_of "Comment" (columns (snd (views_of league))) = Some c /\
      columns out = ["Name"; "Comment_Count"] /\
      submissions_per_round (snd (views_of league)) = Ok sizes /\
      with_comment (snd (views_of league)) = Ok commented /\
      Forall2
        (fun g n =>
           exists k,
             g = [k; count n] /\
             n = length (filter (fun r => py_eq (at_ i r) k
                                          && has_comment (at_ c r))
                                (rows (snd (views_of league)))))
        (rows out) ns /\
      Forall2
        (fun g s =>
           exists k n m, g = [k; count n] /\ s = [k; count m] /\ (n <= m)%nat)
        (rows out) (rows sizes) /\
      (list_sum ns <= len commented)%nat /\
      (Forall (fun r => notna (at_ i r) = true)
              (rows (snd (views_of league))) ->
       list_sum ns = len commented).
Proof.
  eexists. split; [vm_compute; reflexivity|]. split; [reflexivity|].
  apply (comments_per_round_add_up (snd (views_of league))).
  vm_compute. reflexivity.
Defined.

(** ** Means and counts per group *)










(** ** Points per submission *)







(** ** The round shown under a sampled comment *)

Lemma filter_head_split {A : Type} (f : A -> bool) (l : list A) (x : A)
    (t : list A) :
  filter f l = x :: t ->
  exists before after,
    l = before ++ x :: after /\
    (forall b, In b before -> f b = false) /\ f x = true.
Proof.
  induction l as [|y ys IH]; simpl; [discriminate|].
  destruct (f y) eqn:E.
  - intros [= -> <-]. exists [], ys. repeat split; [|exact E].
    intros b [].
  - intros H. destruct (IH H) as (before & after & -> & Hb & Hx).
    exists (y :: before), after. repeat split; [|exact Hx].
    intros b [<-|Hin]; auto.
Qed.

Lemma sample_round_name_found (submissions_with_rounds : DataFrame)
    (u n : nat) (r : row) :
  index_of "Spotify URI" (columns submissions_with_rounds) = Some u ->
  index_of "Name" (columns submissions_with_rounds) = Some n ->
  sample_round_name submissions_with_rounds
    (columns submissions_with_rounds) r
  = match filter (fun x => py_eq (at_ u x) (at_ u r))
                 (rows submissions_with_rounds) with
    | [] => Ok (Str "Unknown Round")
    | first :: _ => Ok (at_ n first)
    end.
Proof.
  intros Hu Hn.
  unfold sample_round_name, field, getitem at 1, col_loc. rewrite Hu.
  cbv [bind]. rewrite map_map.
  rewrite (boolean_index_map (fun x => py_eq (at_ u x) (at_ u r))).
  rewrite (where_eq_found _ _ _ _ Hu). unfold len. cbn [rows].
  destruct (filter _ (rows submissions_with_rounds)) as [|first rest];
    [reflexivity|].
  unfold getitem, col_loc. cbn [columns rows]. rewrite Hn. reflexivity.
Qed.

(** X24. The round written under a sampled comment is looked up by track
    alone, in [submissions_with_rounds].  For a row of that table with a
    track, the answer is the round name of the first row with the same
    track, which is the row's own round when no two rows share a track; a
    row whose track is missing is answered with ["Unknown Round"], although
    it is in the table. *)
Theorem sampled_comment_shows_first_round_of_track
    (submissions_with_rounds : DataFrame) (u n : nat) (r : row) :
  index_of "Spotify URI" (columns submissions_with_rounds) = Some u ->
  index_of "Name" (columns submissions_with_rounds) = Some n ->
  In r (rows submissions_with_rounds) ->
  let shown :=
    sample_round_name submissions_with_rounds
      (columns submissions_with_rounds) r in
  (notna (at_ u r) = true ->
   exists before first after,
     rows submissions_with_rounds = before ++ first :: after /\
     (forall b, In b before -> py_eq (at_ u b) (at_ u r) = false) /\
     py_eq (at_ u first) (at_ u r) = true /\
     shown = Ok (at_ n first)) /\
  (notna (at_ u r) = true ->
   distinct_keys u (rows submissions_with_rounds) ->
   shown = Ok (at_ n r)) /\
  (notna (at_ u r) = false -> shown = Ok (Str "Unknown Round")).
Proof.
  intros Hu Hn Hr shown. unfold shown.
  rewrite (sample_round_name_found _ _ _ _ Hu Hn).
  assert (Hin : notna (at_ u r) = true ->
                In r (filter (fun x => py_eq (at_ u x) (at_ u r))
                             (rows submissions_with_rounds))).
  { intros N. apply filter_In. split; [exact Hr|now apply py_eq_refl]. }
  split; [|split].
  - intros N. specialize (Hin N).
    destruct (filter _ (rows submissions_with_rounds)) as [|first rest] eqn:F;
      [contradiction|].
    destruct (filter_head_split _ _ _ _ F) as (before & after & E & Hb & Hx).
    exists before, first, after. auto.
  - intros N D. specialize (Hin N).
    pose proof (distinct_keys_equal_once u (at_ u r) _ D) as Le.
    rewrite (filter_ext (fun x => py_eq (at_ u r) (at_ u x))
                        (fun x => py_eq (at_ u x) (at_ u r))) in Le
      by (intros x; apply py_eq_sym).
    destruct (filter _ (rows submissions_with_rounds)) as [|first [|y ys]];
      [contradiction| |simpl in Le; lia].
    destruct Hin as [->|[]]. reflexivity.
  - intros N. rewrite filter_none; [reflexivity|].
    rewrite Forall_forall. intros x _.
    destruct (at_ u r); try discriminate. apply py_eq_NaN_r.
Qed.

Lemma sampled_comment_shows_first_round_of_track_witness :
  at_ 8 (nth 1 (rows (snd (views_of replay))) []) = Str "Round 2" /\
  sample_round_name (snd (views_of replay))
    (columns (snd (views_of replay))) (nth 1 (rows (snd (views_of replay))) [])
  = Ok (Str "Round 1") /\
  (notna (at_ 1 (nth 1 (rows (snd (views_of replay))) [])) = true ->
   exists before first after,
     rows (snd (views_of replay)) = before ++ first :: after /\
     (forall b, In b before ->
                py_eq (at_ 1 b) (at_ 1 (nth 1 (rows (snd (views_of replay))) []))
                = false) /\
     py_eq (at_ 1 first) (at_ 1 (nth 1 (rows (snd (views_of replay))) []))
     = true /\
     sample_round_name (snd (views_of replay))
       (columns (snd (views_of replay))) (nth 1 (rows (snd (views_of replay))) [])
     = Ok (at_ 8 first)) /\
  (notna (at_ 1 (nth 1 (rows (snd (views_of replay))) [])) = true ->
   distinct_keys 1 (rows (snd (views_of replay))) ->
   sample_round_name (snd (views_of replay))
       (columns (snd (views_of replay))) (nth 1 (rows (snd (views_of replay))) [])
   = Ok (at_ 8 (nth 1 (rows (snd (views_of replay))) []))) /\
  (notna (at_ 1 (nth 1 (rows (snd (views_of replay))) [])) = false ->
   sample_round_name (snd (views_of replay))
       (columns (snd (views_of replay))) (nth 1 (rows (snd (views_of replay))) [])
   = Ok (Str "Unknown Round")).
Proof.
  split; [reflexivity|]. split; [vm_compute; reflexivity|].
  apply (sampled_comment_shows_first_round_of_track
           (snd (views_of replay)) 1 8
           (nth 1 (rows (snd (views_of replay))) [])).
  - vm_compute. reflexivity.
  - vm_compute. reflexivity.
  - vm_compute. right. left. reflexivity.
Defined.

(** ** The choices of the sidebar *)

Lemma lookup_id_of_listed (df : DataFrame) (names : list cell) (i : nat)
    (selected : cell) :
  getitem df "Name" = Ok names ->
  index_of "ID" (columns df) = Some i ->
  In selected names -> notna selected = true ->
  exists r, In r (rows df) /\ lookup_id df selected = Ok (at_ i r).
Proof.
  intros Hn Hi Hin N. unfold getitem in Hn. unbind Hn as c Hc Hn.
  injection Hn as <-. apply col_loc_ok in Hc.
  apply in_map_iff in Hin. destruct Hin as (r & Hr & Hin).
  unfold lookup_id. rewrite (where_eq_found _ _ _ _ Hc). cbv [bind].
  unfold getitem, col_loc. cbn [columns rows]. rewrite Hi. cbv [bind].
  assert (Hf : In r (filter (fun x => py_eq (at_ c x) selected) (rows df))).
  { apply filter_In. split; [exact Hin|]. rewrite Hr.
    now apply py_eq_refl. }
  destruct (filter _ (rows df)) as [|first rest] eqn:F; [contradiction|].
  exists first. split; [|reflexivity].
  assert (Hfirst : In first (filter (fun x => py_eq (at_ c x) selected)
                                    (rows df)))
    by (rewrite F; now left).
  apply filter_In in Hfirst. tauto.
Qed.

(** X25. A choice of the sidebar always resolves: a round name taken from
    the round select box, other than ["All Rounds"] and not missing, is
    looked up without [IndexError] and gives the id of a round of the file;
    the same holds of the competitor select box. *)
Theorem sidebar_choices_resolve
    (rounds competitors : DataFrame) (round_choices competitor_choices :
    list cell) (i_round i_competitor : nat) :
  round_names rounds = Ok round_choices ->
  competitor_names competitors = Ok competitor_choices ->
  index_of "ID" (columns rounds) = Some i_round ->
  index_of "ID" (columns competitors) = Some i_competitor ->
  (forall selected_round,
     In selected_round round_choices ->
     notna selected_round = true ->
     py_ne selected_round (Str "All Rounds") = true ->
     exists r, In r (rows rounds) /\
               lookup_id rounds selected_round = Ok (at_ i_round r)) /\
  (forall selected_competitor,
     In selected_competitor competitor_choices ->
     notna selected_competitor = true ->
     py_ne selected_competitor (Str "All Competitors") = true ->
     exists c, In c (rows competitors) /\
               lookup_id competitors selected_competitor
               = Ok (at_ i_competitor c)).
Proof.
  unfold round_names, competitor_names. intros Hr Hc Hir Hic.
  unbind Hr as rn Hrn Hr. injection Hr as <-.
  unbind Hc as cn Hcn Hc. injection Hc as <-.
  split.
  - intros sel [<-|Hin] N Ne; [discriminate|].
    now apply (lookup_id_of_listed rounds rn).
  - intros sel [<-|Hin] N Ne; [discriminate|].
    now apply (lookup_id_of_listed competitors cn).
Qed.

Lemma sidebar_choices_resolve_witness :
  exists round_choices competitor_choices,
    round_names twin_rounds = Ok round_choices /\
    competitor_names league_competitors = Ok competitor_choices /\
    round_choices = [Str "All Rounds"; Str "Finale"; Str "Finale"] /\
    (forall selected_round,
       In selected_round round_choices ->
       notna selected_round = true ->
       py_ne selected_round (Str "All Rounds") = true ->
       exists r, In r (rows twin_rounds) /\
                 lookup_id twin_rounds selected_round = Ok (at_ 0 r)) /\
    (forall selected_competitor,
       In selected_competitor competitor_choices ->
       notna selected_competitor = true ->
       py_ne selected_competitor (Str "All Competitors") = true ->
       exists c, In c (rows league_competitors) /\
                 lookup_id league_competitors selected_competitor
                 = Ok (at_ 0 c)).
Proof.
  do 2 eexists. split; [vm_compute; reflexivity|].
  split; [vm_compute; reflexivity|]. split; [reflexivity|].
  apply (sidebar_choices_resolve twin_rounds league_competitors);
    vm_compute; reflexivity.
Defined.
